(** * spendtrack-api: the expense router (src/router/expenses.mjs)

    A shallow embedding of the six handlers of the expense router and of
    the day-grouping aggregation of [GET /], with the properties the
    specification states about them.

    Conventions of the embedding.
    - A JavaScript [Date] is its time value: a [Z] of milliseconds since
      the epoch.  The calendar functions below follow ECMA-262 (Day,
      MakeDay, YearFromTime, MonthFromTime and the ISO format).
    - The process time zone is a fixed offset [tz] in milliseconds east of
      UTC (no daylight-saving transitions).
    - An amount is an IEEE-754 binary64 number ([float]) and [+] on amounts
      is the rounded addition of the platform.  The numbers of a request
      body are integer literals ([Z]).
    - An ObjectId is its canonical text, 24 hexadecimal digits in lower
      case; a string becomes an id through [ObjectId.cast], which refuses
      every other string.
    - The request body is a JavaScript object used as a map: a
      [gmap string JsVal].
    - The accumulator of the [reduce] is an object whose key order is
      observed by [Object.keys]: an association list in insertion order.
    - The store is the list of documents of each collection; a rejected
      promise is [Throw]. *)

From Stdlib Require Import ZArith String Ascii List Lia Permutation Sorted.
From Stdlib Require Import Floats.
From stdpp Require Import gmap strings list fin_maps.

Local Open Scope Z_scope.

(** ** Dates *)

Module JsDate.

Definition msPerDay : Z := 86400000.

(** ECMA-262 Day(t) = floor(t / msPerDay). *)
Definition Day (t : Z) : Z := t / msPerDay.

(** Largest magnitude of a valid time value (TimeClip). *)
Definition maxTime : Z := 8640000000000000.

(** [TimeClip t] is [None] for an Invalid Date. *)
Definition TimeClip (t : Z) : option Z :=
  if (Z.abs t <=? maxTime) then Some t else None.

(** Day number of the civil date year [y], month [m] in 1..12, day [d],
    in the proleptic Gregorian calendar; day 0 is 1970-01-01. *)
Definition days_from_civil (y m d : Z) : Z :=
  let y' := if m <=? 2 then y - 1 else y in
  let era := y' / 400 in
  let yoe := y' - era * 400 in
  let mp := if 2 <? m then m - 3 else m + 9 in
  let doy := (153 * mp + 2) / 5 + d - 1 in
  let doe := yoe * 365 + yoe / 4 - yoe / 100 + doy in
  era * 146097 + doe - 719468.

(** The civil date (year, month in 1..12, day) of a day number. *)
Definition civil_from_days (z : Z) : Z * Z * Z :=
  let z' := z + 719468 in
  let era := z' / 146097 in
  let doe := z' - era * 146097 in
  let yoe := (doe - doe / 1460 + doe / 36524 - doe / 146096) / 365 in
  let doy := doe - (365 * yoe + yoe / 4 - yoe / 100) in
  let mp := (5 * doy + 2) / 153 in
  let d := doy - (153 * mp + 2) / 5 + 1 in
  let m := if mp <? 10 then mp + 3 else mp - 9 in
  ((if m <=? 2 then yoe + era * 400 + 1 else yoe + era * 400), m, d).

(** ECMA-262 MakeDay(year, month, date) with a 0-based [month] that may
    lie outside 0..11: the year absorbs the overflow. *)
Definition MakeDay (year month date : Z) : Z :=
  let ym := year + month / 12 in
  let mn := month mod 12 in
  days_from_civil ym (mn + 1) 1 + date - 1.

(** [new Date(year, month, date)]: local midnight of that day.  A year
    in 0..99 denotes 1900 + year. *)
Definition of_ymd (tz : Z) (year month date : Z) : option Z :=
  let yr := if (0 <=? year) && (year <=? 99) then 1900 + year else year in
  TimeClip (MakeDay yr month date * msPerDay - tz).

(** [d.getFullYear()] and [d.getMonth()] (0-based), in local time. *)
Definition getFullYear (tz : Z) (t : Z) : Z :=
  let '(y, _, _) := civil_from_days (Day (t + tz)) in y.

Definition getMonth (tz : Z) (t : Z) : Z :=
  let '(_, m, _) := civil_from_days (Day (t + tz)) in m - 1.

Definition digit (z : Z) : ascii :=
  ascii_of_nat (48 + Z.to_nat (z mod 10)).

(** The last [w] decimal digits of [z], zero padded. *)
Fixpoint pad (w : nat) (z : Z) : string :=
  match w with
  | O => EmptyString
  | S w' => (pad w' (z / 10) ++ String (digit z) EmptyString)%string
  end.

(** The year of the ISO format: four digits for 0..9999, otherwise a
    sign and six digits. *)
Definition iso_year (y : Z) : string :=
  if (0 <=? y) && (y <=? 9999) then pad 4 y
  else ((if (y <? 0)%Z then "-" else "+") ++ pad 6 (Z.abs y))%string.

(** [d.toISOString().split('T')[0]]: the UTC calendar day,
    "YYYY-MM-DD". *)
Definition toISODate (t : Z) : string :=
  let '(y, m, d) := civil_from_days (Day t) in
  (iso_year y ++ "-" ++ pad 2 m ++ "-" ++ pad 2 d)%string.

End JsDate.

(** ** Results of asynchronous calls *)

Inductive result (A : Type) :=
| Ok (a : A)
| Throw (msg : string).
Arguments Ok {A} a.
Arguments Throw {A} msg.

(** ** ObjectIds *)

Definition store_error : string := "store unreachable".
Definition cast_error : string := "cast failed".
Definition validation_error : string := "validation failed".

Module ObjectId.

Definition is_lower_hex (c : ascii) : bool :=
  let n := nat_of_ascii c in
  ((48 <=? n) && (n <=? 57) || (97 <=? n) && (n <=? 102))%nat.

Definition is_upper_hex (c : ascii) : bool :=
  let n := nat_of_ascii c in
  ((65 <=? n) && (n <=? 70))%nat.

(** The lower-case form of a hexadecimal digit; other characters stay. *)
Definition lower (c : ascii) : ascii :=
  if is_upper_hex c then ascii_of_nat (nat_of_ascii c + 32) else c.

Fixpoint all_chars (p : ascii -> bool) (s : string) : bool :=
  match s with
  | EmptyString => true
  | String c s' => p c && all_chars p s'
  end.

Fixpoint map_chars (f : ascii -> ascii) (s : string) : string :=
  match s with
  | EmptyString => EmptyString
  | String c s' => String (f c) (map_chars f s')
  end.

(** The text of an id: 24 hexadecimal digits, in lower case. *)
Definition canonical (s : string) : bool :=
  (String.length s =? 24)%nat && all_chars is_lower_hex s.

(** An ObjectId: twelve bytes, held as the text [toString()] gives. *)
Record t := {
  toString : string;
  toString_canonical : Is_true (canonical toString)
}.

Definition eqb (a b : t) : bool := String.eqb (toString a) (toString b).

Definition Is_true_dec (b : bool) : {Is_true b} + {~ Is_true b} :=
  match b with
  | true => left I
  | false => right (fun H : False => H)
  end.

(** The cast of a string to an ObjectId: 24 hexadecimal digits of either
    case are an id, and any other string is refused with a CastError.  (A
    driver that also reads a string of twelve bytes as an id is not
    modelled.) *)
Definition cast (s : string) : result t :=
  match Is_true_dec (canonical (map_chars lower s)) with
  | left H => Ok {| toString := map_chars lower s; toString_canonical := H |}
  | right _ => Throw cast_error
  end.

End ObjectId.

(** ** JavaScript values and objects *)

Inductive JsVal :=
| JUndefined
| JNull
| JBool (b : bool)
| JNum (z : Z)
| JStr (s : string)
| JDate (t : Z)
| JId (o : ObjectId.t).

(** ToBoolean: what [!v] and [if (v)] test. *)
Definition truthy (v : JsVal) : bool :=
  match v with
  | JUndefined | JNull => false
  | JBool b => b
  | JNum z => negb (z =? 0)
  | JStr s => negb (String.eqb s "")
  | JDate _ => true
  | JId _ => true
  end.

(** [o.k]: an absent key reads as [undefined]. *)
Definition prop (o : gmap string JsVal) (k : string) : JsVal :=
  default JUndefined (o !! k).

(** An object whose key order is observed: pairs in insertion order.  The
    keys used here are ISO days such as "2024-03-05": none is an array
    index, which [Object.keys] would list first, and none is a name
    inherited from [Object.prototype]. *)
Fixpoint assoc_get {V} (k : string) (o : list (string * V)) : option V :=
  match o with
  | [] => None
  | (k', v) :: o' => if String.eqb k k' then Some v else assoc_get k o'
  end.

(** [o[k] = f(o[k])] for a key that is present; the key keeps its place. *)
Fixpoint assoc_alter {V} (f : V -> V) (k : string) (o : list (string * V))
  : list (string * V) :=
  match o with
  | [] => []
  | (k', v) :: o' =>
      if String.eqb k k' then (k', f v) :: o'
      else (k', v) :: assoc_alter f k o'
  end.

(** [Object.keys(o)]. *)
Definition Object_keys {V} (o : list (string * V)) : list string :=
  map fst o.

(** [Array.prototype.sort(cmp)]: the stable sort by a comparator that
    returns a negative number when its first argument goes first. *)
Fixpoint sort_insert {A} (cmp : A -> A -> Z) (x : A) (l : list A) : list A :=
  match l with
  | [] => [x]
  | y :: l' => if cmp x y <=? 0 then x :: l else y :: sort_insert cmp x l'
  end.

Definition Array_sort {A} (cmp : A -> A -> Z) (l : list A) : list A :=
  foldr (sort_insert cmp) [] l.

(** ** Documents *)

Module Category.

Record t := {
  _id : ObjectId.t;
  created_by : option ObjectId.t  (* [None]: null, shared by all users *)
}.

End Category.

Module Expense.

(** The fields the router reads and writes.  [created_by] is the field the
    update filter names; [None] stands for null or absent, which a query
    for null matches alike. *)
Record t := {
  _id : ObjectId.t;
  user_id : ObjectId.t;
  category_id : ObjectId.t;
  amount : float;
  expense_name : string;
  date_of_expense : Z;
  updated_at : option Z;
  created_by : option ObjectId.t
}.

End Expense.

(** ** The store *)

Record DB := {
  expenses : list Expense.t;
  categories : list Category.t;
  reachable : bool  (* [false]: every call to the store rejects *)
}.

(** The cast of a filter value on a path of type ObjectId: [undefined]
    and [null] pass as no id, an ObjectId is itself, a string is cast, and
    any other value, whose text is never 24 hexadecimal digits, is
    refused. *)
Definition castObjectId (v : JsVal) : result (option ObjectId.t) :=
  match v with
  | JUndefined | JNull => Ok None
  | JId o => Ok (Some o)
  | JStr s =>
      match ObjectId.cast s with
      | Ok o => Ok (Some o)
      | Throw msg => Throw msg
      end
  | JBool _ | JNum _ | JDate _ => Throw cast_error
  end.

Inductive SortDir := asc | desc.

(** The comparator of [.sort({ date_of_expense: dir })]. *)
Definition by_date (dir : SortDir) (a b : Expense.t) : Z :=
  match dir with
  | asc => Expense.date_of_expense a - Expense.date_of_expense b
  | desc => Expense.date_of_expense b - Expense.date_of_expense a
  end.

(** [Expense.find(q).sort({ date_of_expense: dir })].  Documents of equal
    date are left in stored order. *)
Definition Expense_find (db : DB) (q : Expense.t -> bool) (dir : SortDir)
  : result (list Expense.t) :=
  if reachable db
  then Ok (Array_sort (by_date dir) (List.filter q (expenses db)))
  else Throw store_error.

(** [Expense.findOne(q)]. *)
Definition Expense_findOne (db : DB) (q : Expense.t -> bool)
  : result (option Expense.t) :=
  if reachable db then Ok (List.find q (expenses db)) else Throw store_error.

(** [Category.findOne(q)]. *)
Definition Category_findOne (db : DB) (q : Category.t -> bool)
  : result (option Category.t) :=
  if reachable db then Ok (List.find q (categories db)) else Throw store_error.

Fixpoint replace_first (q : Expense.t -> bool) (f : Expense.t -> Expense.t)
  (l : list Expense.t) : list Expense.t :=
  match l with
  | [] => []
  | e :: l' => if q e then f e :: l' else e :: replace_first q f l'
  end.

Fixpoint remove_first (q : Expense.t -> bool) (l : list Expense.t)
  : list Expense.t :=
  match l with
  | [] => []
  | e :: l' => if q e then l' else e :: remove_first q l'
  end.

Definition with_expenses (db : DB) (l : list Expense.t) : DB :=
  {| expenses := l; categories := categories db; reachable := reachable db |}.

(** [Expense.findOneAndUpdate(q, data, { new: true, runValidators: true })].
    [set] is the update document cast and validated against the schema:
    [None] when that fails, which rejects before the store is touched. *)
Definition Expense_findOneAndUpdate (db : DB) (q : Expense.t -> bool)
  (set : option (Expense.t -> Expense.t)) : result (option Expense.t) * DB :=
  if reachable db then
    match set with
    | None => (Throw validation_error, db)
    | Some f =>
        (Ok (option_map f (List.find q (expenses db))),
         with_expenses db (replace_first q f (expenses db)))
    end
  else (Throw store_error, db).

(** [Expense.findOneAndDelete(q)]. *)
Definition Expense_findOneAndDelete (db : DB) (q : Expense.t -> bool)
  : result (option Expense.t) * DB :=
  if reachable db then
    (Ok (List.find q (expenses db)),
     with_expenses db (remove_first q (expenses db)))
  else (Throw store_error, db).

(** [new Expense(data)] followed by [save()]; [doc] is [None] when the
    data does not cast or validate. *)
Definition Expense_save (db : DB) (doc : option Expense.t)
  : result Expense.t * DB :=
  if reachable db then
    match doc with
    | None => (Throw validation_error, db)
    | Some e => (Ok e, with_expenses db (expenses db ++ [e]))
    end
  else (Throw store_error, db).

(** What the router imports from the rest of the repository: the two
    express-validator schemas (the errors they raise on a body), the
    formatter of those errors, and the expense schema through the cast of
    a new document and of an update document. *)
Record Schemas := {
  createExpenseSchema : gmap string JsVal -> list string;
  updateExpenseSchema : gmap string JsVal -> list string;
  formatValidationErrors : list string -> list string;
  Expense_new : ObjectId.t -> gmap string JsVal -> option Expense.t;
  Expense_set : gmap string JsVal -> option (Expense.t -> Expense.t)
}.

(** ** The day-grouping aggregation of [GET /] *)

Module Acc.

Record t := {
  data_expenses : list Expense.t;
  total_expense : float
}.

End Acc.

(** [{ data_expenses: [], total_expense: 0 }]. *)
Definition empty_acc : Acc.t :=
  {| Acc.data_expenses := []; Acc.total_expense := 0%float |}.

(** [expense.date_of_expense.toISOString().split('T')[0]]. *)
Definition day_key (expense : Expense.t) : string :=
  JsDate.toISODate (Expense.date_of_expense expense).

(** The callback of [expenses.reduce]; [+=] on the total is the addition
    of doubles. *)
Definition reduce_step (acc : list (string * Acc.t)) (expense : Expense.t)
  : list (string * Acc.t) :=
  let date := day_key expense in
  let acc1 :=
    match assoc_get date acc with
    | Some _ => acc
    | None => acc ++ [(date, empty_acc)]
    end in
  assoc_alter
    (fun g => {| Acc.data_expenses := Acc.data_expenses g ++ [expense];
                 Acc.total_expense :=
                   (Acc.total_expense g + Expense.amount expense)%float |})
    date acc1.

Definition groupedExpenses (expenses : list Expense.t)
  : list (string * Acc.t) :=
  fold_left reduce_step expenses [].

Record DayEntry := {
  date_of_expenses : string;
  total_expense : float;
  data_expenses : list Expense.t
}.

(** [(a, b) => new Date(b.date_of_expense) - new Date(a.date_of_expense)]. *)
Definition newest_first (a b : Expense.t) : Z :=
  Expense.date_of_expense b - Expense.date_of_expense a.

(** [Object.keys(groupedExpenses).map(date => ...)]. *)
Definition data (expenses : list Expense.t) : list DayEntry :=
  let grouped := groupedExpenses expenses in
  map (fun date =>
         let g := default empty_acc (assoc_get date grouped) in
         {| date_of_expenses := date;
            total_expense := Acc.total_expense g;
            data_expenses := Array_sort newest_first (Acc.data_expenses g) |})
      (Object_keys grouped).

(** ** Responses *)

Inductive Payload :=
| Rows (l : list Expense.t)
| Row (e : Expense.t)
| Days (l : list DayEntry).

(** The object given to [res.json]. *)
Inductive Json :=
| Message (message : string)
| MessageData (message : string) (payload : Payload)
| MessageError (message : string) (error : string)
| Errors (errors : list string).

Record Response := {
  status : Z;
  json : Json
}.

Definition respond (st : Z) (j : Json) : Response :=
  {| status := st; json := j |}.

(** ** The process and its handlers *)

(** [getCurrentMonthDateRange] at the instant [now]; a component is [None]
    when the date is invalid. *)
Definition getCurrentMonthDateRange (tz now : Z) : option Z * option Z :=
  (JsDate.of_ymd tz (JsDate.getFullYear tz now) (JsDate.getMonth tz now) 1,
   JsDate.of_ymd tz (JsDate.getFullYear tz now) (JsDate.getMonth tz now + 1) 1).

(** The module-level bindings of the router, with the zone of the process. *)
Record Process := {
  tz : Z;
  startOfMonth : option Z;
  endOfMonth : option Z
}.

(** Loading the module at the instant [now]. *)
Definition boot (zone now : Z) : Process :=
  {| tz := zone;
     startOfMonth := fst (getCurrentMonthDateRange zone now);
     endOfMonth := snd (getCurrentMonthDateRange zone now) |}.

(** [{ user_id: uid, date_of_expense: { $gte: s, $lte: e } }]. *)
Definition current_month_query (uid : ObjectId.t) (s e : Z) (x : Expense.t)
  : bool :=
  ObjectId.eqb (Expense.user_id x) uid
  && (s <=? Expense.date_of_expense x)
  && (Expense.date_of_expense x <=? e).

(** [{ user_id: uid, date_of_expense: { $gte: s, $lt: e } }]. *)
Definition month_query (uid : ObjectId.t) (s e : Z) (x : Expense.t) : bool :=
  ObjectId.eqb (Expense.user_id x) uid
  && (s <=? Expense.date_of_expense x)
  && (Expense.date_of_expense x <? e).

(** [{ _id: id, user_id: uid }], the filter of [GET /:id] and of
    [DELETE /:id]. *)
Definition owner_query (uid id : ObjectId.t) (x : Expense.t) : bool :=
  ObjectId.eqb (Expense._id x) id && ObjectId.eqb (Expense.user_id x) uid.

(** [{ _id: id, $or: [{ created_by: uid }, { created_by: null }] }], the
    filter of [PATCH /:id]. *)
Definition update_query (uid id : ObjectId.t) (x : Expense.t) : bool :=
  ObjectId.eqb (Expense._id x) id
  && match Expense.created_by x with
     | Some u => ObjectId.eqb u uid
     | None => true
     end.

(** [{ _id: cid, $or: [{ created_by: uid }, { created_by: null }] }] on
    the categories. *)
Definition category_query (uid : ObjectId.t) (cid : option ObjectId.t)
  (c : Category.t) : bool :=
  match cid with
  | Some id => ObjectId.eqb (Category._id c) id
  | None => false  (* no document has a null [_id] *)
  end
  && match Category.created_by c with
     | Some u => ObjectId.eqb u uid
     | None => true
     end.

(** The category lookup of [POST /] and [PATCH /:id]. *)
Definition isCategoryExist (db : DB) (uid : ObjectId.t)
  (body : gmap string JsVal) : result (option Category.t) :=
  match castObjectId (prop body "category_id") with
  | Ok cid => Category_findOne db (category_query uid cid)
  | Throw msg => Throw msg
  end.

(** A date range with an invalid bound does not cast: the query rejects. *)
Definition find_between (db : DB) (q : Z -> Z -> Expense.t -> bool)
  (s e : option Z) (dir : SortDir) : result (list Expense.t) :=
  match s, e with
  | Some s', Some e' => Expense_find db (q s' e') dir
  | _, _ => Throw cast_error
  end.

(** [router.get('/')]. *)
Definition get_root (p : Process) (db : DB) (uid : ObjectId.t) : Response :=
  match find_between db (current_month_query uid)
          (startOfMonth p) (endOfMonth p) desc with
  | Ok [] => respond 404 (MessageData "expense not found" (Rows []))
  | Ok expenses =>
      respond 200 (MessageData "success get all expenses" (Days (data expenses)))
  | Throw msg => respond 500 (MessageError "error get all expenses" msg)
  end.

(** The bounds of [router.get('/month/:month')]:
    [new Date(year, month - 1, 1)] and [new Date(year, month, 1)], where
    [month] is [parseInt(req.params.month)], [None] for NaN. *)
Definition month_range (zone year : Z) (month : option Z)
  : option Z * option Z :=
  match month with
  | Some m => (JsDate.of_ymd zone year (m - 1) 1, JsDate.of_ymd zone year m 1)
  | None => (None, None)
  end.

(** [router.get('/month/:month')]. *)
Definition get_month (p : Process) (now : Z) (db : DB) (uid : ObjectId.t)
  (month : option Z) : Response :=
  let year := JsDate.getFullYear (tz p) now in
  let '(startOfMonth, endOfMonth) := month_range (tz p) year month in
  match find_between db (month_query uid) startOfMonth endOfMonth asc with
  | Ok [] => respond 404 (MessageData "expense not found" (Rows []))
  | Ok expenses =>
      respond 200 (MessageData "success get all expenses" (Rows expenses))
  | Throw _ => respond 500 (Message "error get all expenses")
  end.

(** A query that names a document by the text of its id: the text is cast
    first, and the query rejects when the cast does. *)
Definition by_id {A} (id : string) (query : ObjectId.t -> result A)
  : result A :=
  match ObjectId.cast id with
  | Ok oid => query oid
  | Throw msg => Throw msg
  end.

(** The same for a query that writes: a refused id leaves the store as it
    is. *)
Definition by_id_write {A} (db : DB) (id : string)
  (query : ObjectId.t -> result A * DB) : result A * DB :=
  match ObjectId.cast id with
  | Ok oid => query oid
  | Throw msg => (Throw msg, db)
  end.

(** [router.get('/:id')]; [id] is [req.params.id]. *)
Definition get_by_id (db : DB) (uid : ObjectId.t) (id : string) : Response :=
  match by_id id (fun oid => Expense_findOne db (owner_query uid oid)) with
  | Ok None => respond 404 (MessageData "expense not found" (Rows []))
  | Ok (Some expense) =>
      respond 200 (MessageData "success get expense by id" (Row expense))
  | Throw _ => respond 500 (Message "error get expense by id")
  end.

(** [router.post('/')].  The category lookup is outside the [try]: when it
    rejects, so does the handler ([Throw]) and no response is written. *)
Definition post_root (S : Schemas) (fresh : ObjectId.t) (db : DB)
  (uid : ObjectId.t) (body : gmap string JsVal) : DB * result Response :=
  match createExpenseSchema S body with
  | (_ :: _) as errors =>
      (db, Ok (respond 400 (Errors (formatValidationErrors S errors))))
  | [] =>
      match isCategoryExist db uid body with
      | Throw msg => (db, Throw msg)
      | Ok None => (db, Ok (respond 400 (Message "category not found")))
      | Ok (Some _) =>
          let data := <["user_id" := JId uid]> body in
          match Expense_save db (Expense_new S fresh data) with
          | (Ok newExpense, db') =>
              (db', Ok (respond 201
                          (MessageData "success create expense" (Row newExpense))))
          | (Throw _, db') =>
              (db', Ok (respond 500 (Message "error create expense")))
          end
      end
  end.

(** [!body.amount && !body.expense_name && !body.date_of_expense &&
    !body.category_id]. *)
Definition no_field_filled (body : gmap string JsVal) : bool :=
  negb (truthy (prop body "amount"))
  && negb (truthy (prop body "expense_name"))
  && negb (truthy (prop body "date_of_expense"))
  && negb (truthy (prop body "category_id")).

(** [router.patch('/:id')]. *)
Definition patch_by_id (S : Schemas) (now : Z) (db : DB)
  (uid : ObjectId.t) (id : string) (body : gmap string JsVal)
  : DB * result Response :=
  match updateExpenseSchema S body with
  | (_ :: _) as errors =>
      (db, Ok (respond 400 (Errors (formatValidationErrors S errors))))
  | [] =>
      if no_field_filled body then
        (db, Ok (respond 400 (Message "at least one field must be filled")))
      else
        let category_missing :=
          if truthy (prop body "category_id") then
            match isCategoryExist db uid body with
            | Ok None => Ok true
            | Ok (Some _) => Ok false
            | Throw msg => Throw msg
            end
          else Ok false in
        match category_missing with
        | Throw msg => (db, Throw msg)
        | Ok true => (db, Ok (respond 400 (Message "category not found")))
        | Ok false =>
            let data := <["updated_at" := JDate now]> body in
            match by_id_write db id
                    (fun oid => Expense_findOneAndUpdate db
                                  (update_query uid oid) (Expense_set S data))
            with
            | (Ok None, db') =>
                (db', Ok (respond 404 (Message "expense not found")))
            | (Ok (Some expense), db') =>
                (db', Ok (respond 200
                            (MessageData "success update expense" (Row expense))))
            | (Throw _, db') =>
                (db', Ok (respond 500 (Message "error update expense")))
            end
        end
  end.

(** [router.delete('/:id')]. *)
Definition delete_by_id (db : DB) (uid : ObjectId.t) (id : string)
  : DB * Response :=
  match by_id_write db id
          (fun oid => Expense_findOneAndDelete db (owner_query uid oid)) with
  | (Ok None, db') => (db', respond 404 (Message "expense not found"))
  | (Ok (Some deletedExpense), db') =>
      (db', respond 200
              (MessageData "success delete expense" (Row deletedExpense)))
  | (Throw _, db') => (db', respond 500 (Message "error delete expense"))
  end.

(** ** The server *)

(** A request that passed [isLoggedin]; [uid] is [req.user._id] and [id]
    is [req.params.id], the text of the path. *)
Inductive Request :=
| GetRoot (uid : ObjectId.t)
| GetMonth (uid : ObjectId.t) (month : option Z)
| GetById (uid : ObjectId.t) (id : string)
| Post (uid : ObjectId.t) (body : gmap string JsVal)
| Patch (uid : ObjectId.t) (id : string) (body : gmap string JsVal)
| Delete (uid : ObjectId.t) (id : string).

(** What the platform supplies while a request is served: the clock and
    the id given to a new document. *)
Record Env := {
  now : Z;
  fresh_id : ObjectId.t
}.

Record State := {
  process : Process;
  db : DB
}.

Definition serve (S : Schemas) (st : State) (env : Env) (r : Request)
  : State * result Response :=
  let p := process st in
  match r with
  | GetRoot uid => (st, Ok (get_root p (db st) uid))
  | GetMonth uid month => (st, Ok (get_month p (now env) (db st) uid month))
  | GetById uid id => (st, Ok (get_by_id (db st) uid id))
  | Post uid body =>
      let '(db', out) := post_root S (fresh_id env) (db st) uid body in
      ({| process := p; db := db' |}, out)
  | Patch uid id body =>
      let '(db', out) := patch_by_id S (now env) (db st) uid id body in
      ({| process := p; db := db' |}, out)
  | Delete uid id =>
      let '(db', out) := delete_by_id (db st) uid id in
      ({| process := p; db := db' |}, Ok out)
  end.

(** The requests of a process lifetime, served one after the other. *)
Fixpoint run (S : Schemas) (st : State) (evs : list (Env * Request))
  : State * list (result Response) :=
  match evs with
  | [] => (st, [])
  | (env, r) :: evs' =>
      let '(st1, out) := serve S st env r in
      let '(st2, outs) := run S st1 evs' in
      (st2, out :: outs)
  end.

(** The process started at the instant [t0] over the store [d]. *)
Definition start (zone t0 : Z) (d : DB) : State :=
  {| process := boot zone t0; db := d |}.

(** ** Vocabulary of the statements *)

(** The records of [l] that fall on the day [k], in the order of [l]. *)
Definition records_of_day (k : string) (l : list Expense.t) : list Expense.t :=
  List.filter (fun e => String.eqb (day_key e) k) l.

(** The sum of the amounts of [l] as the platform computes it: doubles,
    added from 0 one after the other in the order of [l]. *)
Definition sum_amounts (l : list Expense.t) : float :=
  fold_left (fun s e => (s + Expense.amount e)%float) l 0%float.

(** The keys of [ks] without repetition, each at its first occurrence. *)
Definition first_seen (ks : list string) : list string :=
  fold_left (fun seen k => if existsb (String.eqb k) seen then seen else seen ++ [k])
            ks [].

(** The position of the first occurrence of [k] in [ks]. *)
Fixpoint index_of (k : string) (ks : list string) : option nat :=
  match ks with
  | [] => None
  | k' :: ks' =>
      if String.eqb k k' then Some O else option_map S (index_of k ks')
  end.

(** The total of the day [k] in an output of the aggregation. *)
Definition day_total (k : string) (out : list DayEntry) : option float :=
  option_map total_expense
    (List.find (fun b => String.eqb (date_of_expenses b) k) out).

(** Newest first: each record is at least as recent as those after it. *)
Definition descending (l : list Expense.t) : Prop :=
  StronglySorted
    (fun a b => Expense.date_of_expense b <= Expense.date_of_expense a) l.

(** The accumulator the reduce holds for the day [k] once it has consumed
    [l], and the entry [data] makes of it. *)
Definition bucket_of (k : string) (l : list Expense.t) : Acc.t :=
  {| Acc.data_expenses := records_of_day k l;
     Acc.total_expense := sum_amounts (records_of_day k l) |}.

Definition entry_of (k : string) (l : list Expense.t) : DayEntry :=
  {| date_of_expenses := k;
     total_expense := sum_amounts (records_of_day k l);
     data_expenses := Array_sort newest_first (records_of_day k l) |}.

(** The fields a [PATCH /:id] body may change. *)
Definition mutable_fields : list string :=
  ["amount"; "expense_name"; "date_of_expense"; "category_id"]%string.

(** Oldest first: each record is at most as recent as those after it. *)
Definition ascending (l : list Expense.t) : Prop :=
  StronglySorted
    (fun a b => Expense.date_of_expense a <= Expense.date_of_expense b) l.

(** The records of [l] dated at the instant [t], in the order of [l]. *)
Definition records_at (t : Z) (l : list Expense.t) : list Expense.t :=
  List.filter (fun e => Expense.date_of_expense e =? t) l.

(** The status codes each route writes. *)
Definition statuses_of (r : Request) : list Z :=
  match r with
  | GetRoot _ | GetMonth _ _ | GetById _ _ | Delete _ _ => [200; 404; 500]
  | Post _ _ => [201; 400; 500]
  | Patch _ _ _ => [200; 400; 404; 500]
  end.

(** ** Sample data *)

(** The id of a canonical text. *)
Definition oid (s : string) (H : Is_true (ObjectId.canonical s)) : ObjectId.t :=
  {| ObjectId.toString := s; ObjectId.toString_canonical := H |}.

Definition alice : ObjectId.t := oid "a11ce0000000000000000001" I.
Definition bob : ObjectId.t := oid "b0b000000000000000000002" I.

Definition food_id : ObjectId.t := oid "c0000000000000000000f00d" I.
Definition bobs_own_id : ObjectId.t := oid "c00000000000000000000b0b" I.

Definition food : Category.t :=
  {| Category._id := food_id; Category.created_by := None |}.
Definition bobs_own : Category.t :=
  {| Category._id := bobs_own_id; Category.created_by := Some bob |}.

Definition expense (id owner cat : ObjectId.t) (amt : float) (name : string)
  (date : Z) : Expense.t :=
  {| Expense._id := id; Expense.user_id := owner; Expense.category_id := cat;
     Expense.amount := amt; Expense.expense_name := name;
     Expense.date_of_expense := date; Expense.updated_at := None;
     Expense.created_by := None |}.

Definition e1 : ObjectId.t := oid "e00000000000000000000001" I.
Definition e2 : ObjectId.t := oid "e00000000000000000000002" I.
Definition e3 : ObjectId.t := oid "e00000000000000000000003" I.
Definition e4 : ObjectId.t := oid "e00000000000000000000004" I.
Definition e5 : ObjectId.t := oid "e00000000000000000000005" I.
Definition e6 : ObjectId.t := oid "e00000000000000000000006" I.
Definition e7 : ObjectId.t := oid "e00000000000000000000007" I.
Definition e8 : ObjectId.t := oid "e00000000000000000000008" I.
Definition e9 : ObjectId.t := oid "e00000000000000000000009" I.
Definition ea : ObjectId.t := oid "e0000000000000000000000a" I.
Definition eb : ObjectId.t := oid "e0000000000000000000000b" I.
Definition ec : ObjectId.t := oid "e0000000000000000000000c" I.

(** 2024-03-05T10:00Z, 2024-03-05T18:00Z and 2024-03-06T09:00Z. *)
Definition lunch : Expense.t := expense e1 alice food_id 20 "lunch" 1709632800000.
Definition dinner : Expense.t := expense e2 alice food_id 30 "dinner" 1709661600000.
Definition coffee : Expense.t := expense e3 alice food_id 5 "coffee" 1709715600000.

(** 2024-04-01T00:00:00.000Z, the first instant of April 2024, and an
    expense of Alice dated then. *)
Definition april_1st : Z := 1711929600000.
Definition rent : Expense.t := expense e4 alice food_id 700 "rent" april_1st.

(** An expense of Bob in a category of his own. *)
Definition bobs_book : Expense.t :=
  expense e9 bob bobs_own_id 12 "book" 1709632800000.

Definition store_of (l : list Expense.t) : DB :=
  {| expenses := l; categories := [food; bobs_own]; reachable := true |}.

Definition as_date (v : JsVal) : option Z :=
  match v with
  | JDate t | JNum t => Some t
  | _ => None
  end.

(** The double nearest to an integer literal. *)
Definition number_of_Z (z : Z) : float :=
  SF2Prim (binary_normalize prec emax z 0 false).

(** A plain expense schema: the five paths with their types, all required
    in a new document. *)
Definition plain_new (fresh : ObjectId.t) (data : gmap string JsVal)
  : option Expense.t :=
  match prop data "amount", prop data "expense_name",
        as_date (prop data "date_of_expense"),
        castObjectId (prop data "category_id"), prop data "user_id" with
  | JNum a, JStr n, Some d, Ok (Some c), JId u =>
      Some (expense fresh u c (number_of_Z a) n d)
  | _, _, _, _, _ => None
  end.

Definition plain_set (data : gmap string JsVal)
  : option (Expense.t -> Expense.t) :=
  match prop data "amount" with
  | JNum a =>
      Some (fun e =>
              {| Expense._id := Expense._id e;
                 Expense.user_id := Expense.user_id e;
                 Expense.category_id := Expense.category_id e;
                 Expense.amount := number_of_Z a;
                 Expense.expense_name := Expense.expense_name e;
                 Expense.date_of_expense := Expense.date_of_expense e;
                 Expense.updated_at := as_date (prop data "updated_at");
                 Expense.created_by := Expense.created_by e |})
  | JUndefined => Some (fun e => e)
  | _ => None
  end.

(** Collaborators that accept every body. *)
Definition plain : Schemas :=
  {| createExpenseSchema := fun _ => [];
     updateExpenseSchema := fun _ => [];
     formatValidationErrors := fun errors => errors;
     Expense_new := plain_new;
     Expense_set := plain_set |}.

(** 2024-03-05T10:00Z and 2024-04-02T10:00Z. *)
Definition march_5th : Z := 1709632800000.
Definition april_2nd : Z := 1712052000000.

(** The body of Bob's [POST /] that creates [bobs_book], and the body of
    Alice's [PATCH] of it. *)
Definition book_body : gmap string JsVal :=
  <["amount" := JNum 12]>
    (<["expense_name" := JStr "book"]>
       (<["date_of_expense" := JNum march_5th]>
          (<["category_id" := JStr "c00000000000000000000b0b"]> ∅))).

Definition one_unit : gmap string JsVal := <["amount" := JNum 1]> ∅.

Definition bobs_book_patched : Expense.t :=
  {| Expense._id := e9; Expense.user_id := bob;
     Expense.category_id := bobs_own_id; Expense.amount := 1;
     Expense.expense_name := "book"; Expense.date_of_expense := march_5th;
     Expense.updated_at := Some april_2nd; Expense.created_by := None |}.

Definition tea : Expense.t := expense e5 alice food_id 3 "tea" april_2nd.

(** Two expenses of Alice at the same instant, 2024-03-05T10:00Z. *)
Definition bus : Expense.t := expense e7 alice food_id 2 "bus" march_5th.

(** Three expenses of Alice on 2024-03-05, one of 2^53 and two of 1. *)
Definition car : Expense.t :=
  expense ea alice food_id 9007199254740992 "car" march_5th.
Definition gum : Expense.t := expense eb alice food_id 1 "gum" march_5th.
Definition pen : Expense.t := expense ec alice food_id 1 "pen" march_5th.

(** A store that rejects every call. *)
Definition down (l : list Expense.t) : DB :=
  {| expenses := l; categories := [food; bobs_own]; reachable := false |}.

(** 2024-12-15T00:00Z, and the offset of a zone two hours east of UTC,
    where December 2024 runs from 2024-11-30T22:00Z to 2024-12-31T22:00Z. *)
Definition december_15th : Z := 1734220800000.
Definition two_hours : Z := 7200000.

(** A body that names the owner, and one that names the update time. *)
Definition spoofed_body : gmap string JsVal :=
  <["user_id" := JId alice]> book_body.

Definition backdated : gmap string JsVal :=
  <["updated_at" := JNum 0]> one_unit.

(** Alice's body for a new expense in Bob's own category. *)
Definition trespass_body : gmap string JsVal :=
  <["amount" := JNum 7]>
    (<["expense_name" := JStr "gift"]>
       (<["date_of_expense" := JNum march_5th]>
          (<["category_id" := JStr "c00000000000000000000b0b"]> ∅))).

(** Texts that are no ObjectId: too short, and 24 characters that are not
    all hexadecimal digits. *)
Definition short_id : string := "e9".
Definition not_hex_id : string := "e0000000000000000000000g".

(** A body whose [category_id] is no id. *)
Definition misfiled_body : gmap string JsVal :=
  <["category_id" := JStr "c-bob"]> book_body.

(** Collaborators whose validation gate raises two errors on every body. *)
Definition strict : Schemas :=
  {| createExpenseSchema := fun _ => ["amount is required"; "name is required"];
     updateExpenseSchema := fun _ => ["amount is required"; "name is required"];
     formatValidationErrors := fun errors => errors;
     Expense_new := plain_new;
     Expense_set := plain_set |}.

(** * Properties *)

(** ** The calendar, on known dates *)
Example iso_2024_03_05 :
  JsDate.toISODate 1709632800000 = "2024-03-05"%string.
Proof. reflexivity. Qed.

Example iso_epoch : JsDate.toISODate 0 = "1970-01-01"%string.
Proof. reflexivity. Qed.

Example iso_before_epoch : JsDate.toISODate (-1) = "1969-12-31"%string.
Proof. reflexivity. Qed.

Example iso_leap_day :
  JsDate.toISODate 1709164800000 = "2024-02-29"%string.
Proof. reflexivity. Qed.

Example of_ymd_april_2024 :
  JsDate.of_ymd 0 2024 3 1 = Some 1711929600000.
Proof. reflexivity. Qed.

Example of_ymd_month_overflow :
  JsDate.of_ymd 0 2024 12 1 = JsDate.of_ymd 0 2025 0 1.
Proof. reflexivity. Qed.

(** ** [Array_sort] *)

Section ArraySort.

Context {A : Type} (cmp : A -> A -> Z).

Lemma sort_insert_perm (x : A) (l : list A) :
  Permutation (sort_insert cmp x l) (x :: l).
Proof.
  induction l as [|y l IH]; simpl; [reflexivity|].
  destruct (cmp x y <=? 0); [reflexivity|].
  rewrite IH. apply perm_swap.
Qed.

Lemma Array_sort_perm (l : list A) : Permutation (Array_sort cmp l) l.
Proof.
  induction l as [|x l IH]; simpl; [reflexivity|].
  rewrite sort_insert_perm. now apply perm_skip.
Qed.

Lemma Array_sort_In (x : A) (l : list A) : In x (Array_sort cmp l) <-> In x l.
Proof.
  split; apply Permutation_in;
    [apply Array_sort_perm | symmetry; apply Array_sort_perm].
Qed.

(** A comparator that orders by a rank: negative or zero exactly when the
    first argument ranks at least as high. *)
Variable rank : A -> Z.
Hypothesis cmp_rank : forall a b, cmp a b <= 0 <-> rank b <= rank a.

Local Abbreviation above := (fun a b : A => rank b <= rank a).

Lemma sort_insert_sorted (x : A) (l : list A) :
  StronglySorted above l -> StronglySorted above (sort_insert cmp x l).
Proof.
  induction 1 as [|y l Hs IH Hy]; simpl.
  - repeat constructor.
  - destruct (Z.leb_spec (cmp x y) 0) as [Hle|Hgt].
    + apply cmp_rank in Hle.
      constructor; [now constructor|].
      constructor; [exact Hle|].
      eapply Forall_impl; [exact Hy|].
      intros z Hz. simpl in *. lia.
    + constructor; [exact IH|].
      assert (Hxy : rank x <= rank y).
      { destruct (Z.le_gt_cases (rank x) (rank y)) as [?|Hlt]; [assumption|].
        exfalso. assert (cmp x y <= 0) by (apply cmp_rank; lia). lia. }
      eapply Permutation_Forall; [symmetry; apply sort_insert_perm|].
      constructor; assumption.
Qed.

Lemma Array_sort_sorted (l : list A) : StronglySorted above (Array_sort cmp l).
Proof.
  induction l as [|x l IH]; simpl; [constructor|].
  now apply sort_insert_sorted.
Qed.

End ArraySort.

Lemma sort_newest_first_descending (l : list Expense.t) :
  descending (Array_sort newest_first l).
Proof.
  apply (Array_sort_sorted newest_first Expense.date_of_expense).
  intros a b. unfold newest_first. lia.
Qed.

(** ** Keys in order of first occurrence *)

Lemma existsb_eqb_In (k : string) (ks : list string) :
  existsb (String.eqb k) ks = true <-> In k ks.
Proof.
  rewrite existsb_exists. split.
  - intros (x & Hx & He). apply String.eqb_eq in He. now subst.
  - intros H. exists k. split; [exact H | apply String.eqb_refl].
Qed.

Lemma first_seen_snoc (ks : list string) (k : string) :
  first_seen (ks ++ [k]) =
  if existsb (String.eqb k) (first_seen ks) then first_seen ks
  else first_seen ks ++ [k].
Proof. unfold first_seen. now rewrite fold_left_app. Qed.

Lemma first_seen_In (ks : list string) (k : string) :
  In k (first_seen ks) <-> In k ks.
Proof.
  induction ks as [|x ks IH] using rev_ind; [reflexivity|].
  rewrite first_seen_snoc.
  destruct (existsb (String.eqb x) (first_seen ks)) eqn:E.
  - apply existsb_eqb_In in E. rewrite in_app_iff, IH. simpl.
    split; [tauto|]. intros [H|[->|[]]]; [exact H | now apply IH].
  - rewrite !in_app_iff, IH. reflexivity.
Qed.

Lemma first_seen_fresh (ks : list string) (k : string) :
  ~ In k ks -> existsb (String.eqb k) (first_seen ks) = false.
Proof.
  intros Hn. apply not_true_iff_false. intros E.
  apply existsb_eqb_In in E. apply (proj1 (first_seen_In _ _)) in E.
  contradiction.
Qed.

Lemma first_seen_NoDup (ks : list string) : NoDup (first_seen ks).
Proof.
  induction ks as [|x ks IH] using rev_ind; [constructor|].
  rewrite first_seen_snoc.
  destruct (existsb (String.eqb x) (first_seen ks)) eqn:E; [exact IH|].
  apply NoDup_app. repeat split.
  - exact IH.
  - intros y Hy [->|[]]%list_elem_of_In.
    apply list_elem_of_In, existsb_eqb_In in Hy. congruence.
  - apply NoDup_singleton.
Qed.

Lemma index_of_Some_lt (k : string) (ks : list string) (i : nat) :
  index_of k ks = Some i -> (i < length ks)%nat.
Proof.
  revert i. induction ks as [|x ks IH]; simpl; [discriminate|].
  intros i. destruct (String.eqb k x).
  - intros [= <-]. lia.
  - destruct (index_of k ks) as [j|]; simpl; [|discriminate].
    intros [= <-]. specialize (IH j eq_refl). lia.
Qed.

Lemma index_of_None (k : string) (ks : list string) :
  index_of k ks = None <-> ~ In k ks.
Proof.
  induction ks as [|x ks IH]; simpl; [tauto|].
  destruct (String.eqb_spec k x) as [->|Hne].
  - split; [discriminate | tauto].
  - destruct (index_of k ks); simpl.
    + split; [discriminate|]. intros H.
      assert (Hn : ~ In k ks) by tauto. now apply IH in Hn.
    + split; [|reflexivity]. intros _ [H|H]; [congruence|].
      now apply IH in H.
Qed.

Lemma index_of_Some_In (k : string) (ks : list string) (i : nat) :
  index_of k ks = Some i -> In k ks.
Proof.
  intros H. destruct (in_dec string_dec k ks) as [Hin|Hn]; [exact Hin|].
  apply index_of_None in Hn. congruence.
Qed.

Lemma index_of_snoc (k x : string) (ks : list string) :
  index_of k (ks ++ [x]) =
  match index_of k ks with
  | Some i => Some i
  | None => if String.eqb k x then Some (length ks) else None
  end.
Proof.
  induction ks as [|y ks IH]; simpl.
  - now destruct (String.eqb k x).
  - destruct (String.eqb k y); [reflexivity|].
    rewrite IH. destruct (index_of k ks); simpl; [reflexivity|].
    now destruct (String.eqb k x).
Qed.

(** The order of first occurrences is the order of the output keys. *)
Lemma first_seen_order (ks : list string) (k1 k2 : string) (i1 i2 : nat) :
  index_of k1 ks = Some i1 -> index_of k2 ks = Some i2 ->
  exists j1 j2,
    index_of k1 (first_seen ks) = Some j1 /\
    index_of k2 (first_seen ks) = Some j2 /\
    ((j1 < j2)%nat <-> (i1 < i2)%nat).
Proof.
  revert k1 k2 i1 i2.
  induction ks as [|x ks IH] using rev_ind; [discriminate|].
  intros k1 k2 i1 i2. rewrite !index_of_snoc, first_seen_snoc.
  assert (Hfresh : forall k, index_of k ks = None -> index_of k (first_seen ks) = None).
  { intros k Hk. apply index_of_None. rewrite first_seen_In.
    now apply index_of_None. }
  destruct (index_of k1 ks) as [a1|] eqn:E1;
    destruct (index_of k2 ks) as [a2|] eqn:E2.
  - intros [= <-] [= <-].
    destruct (IH _ _ _ _ E1 E2) as (j1 & j2 & H1 & H2 & Hiff).
    exists j1, j2.
    destruct (existsb (String.eqb x) (first_seen ks)) eqn:E; [easy|].
    rewrite !index_of_snoc, H1, H2. easy.
  - intros [= <-]. destruct (String.eqb_spec k2 x) as [->|]; [|discriminate].
    intros [= <-].
    destruct (IH _ _ _ _ E1 E1) as (j1 & _ & H1 & _ & _).
    pose proof (index_of_Some_lt _ _ _ E1).
    pose proof (index_of_Some_lt _ _ _ H1).
    assert (E : existsb (String.eqb x) (first_seen ks) = false)
      by now apply first_seen_fresh, index_of_None.
    rewrite E, !index_of_snoc, H1, (Hfresh _ E2), String.eqb_refl.
    exists j1, (length (first_seen ks)). repeat split; lia.
  - destruct (String.eqb_spec k1 x) as [->|]; [|discriminate].
    intros [= <-] [= <-].
    destruct (IH _ _ _ _ E2 E2) as (j2 & _ & H2 & _ & _).
    pose proof (index_of_Some_lt _ _ _ E2).
    pose proof (index_of_Some_lt _ _ _ H2).
    assert (E : existsb (String.eqb x) (first_seen ks) = false)
      by now apply first_seen_fresh, index_of_None.
    rewrite E, !index_of_snoc, H2, (Hfresh _ E1), String.eqb_refl.
    exists (length (first_seen ks)), j2. repeat split; lia.
  - destruct (String.eqb_spec k1 x) as [->|]; [|discriminate].
    destruct (String.eqb_spec k2 x) as [->|]; [|discriminate].
    intros [= <-] [= <-].
    assert (E : existsb (String.eqb x) (first_seen ks) = false)
      by now apply first_seen_fresh, index_of_None.
    rewrite E, !index_of_snoc, (Hfresh _ E1), String.eqb_refl.
    exists (length (first_seen ks)), (length (first_seen ks)).
    repeat split; lia.
Qed.

(** ** The accumulator of the reduce *)

Lemma assoc_get_map {V} (g : string -> V) (k : string) (ks : list string) :
  assoc_get k (map (fun k' => (k', g k')) ks) =
  if existsb (String.eqb k) ks then Some (g k) else None.
Proof.
  induction ks as [|x ks IH]; simpl; [reflexivity|].
  destruct (String.eqb_spec k x) as [->|]; [reflexivity | exact IH].
Qed.

Lemma assoc_alter_map {V} (f : V -> V) (g : string -> V) (k : string)
  (ks : list string) :
  NoDup ks ->
  assoc_alter f k (map (fun k' => (k', g k')) ks) =
  map (fun k' => (k', if String.eqb k k' then f (g k') else g k')) ks.
Proof.
  induction 1 as [|x ks Hx Hnd IH]; simpl; [reflexivity|].
  destruct (String.eqb_spec k x) as [->|Hne].
  - f_equal. apply map_ext_in. intros y Hy.
    destruct (String.eqb_spec x y) as [->|]; [|reflexivity].
    exfalso. apply Hx. now apply list_elem_of_In.
  - now rewrite IH.
Qed.

Lemma assoc_alter_fresh {V} (f : V -> V) (k : string) (v : V)
  (o : list (string * V)) :
  ~ In k (Object_keys o) ->
  assoc_alter f k (o ++ [(k, v)]) = o ++ [(k, f v)].
Proof.
  induction o as [|[x w] o IH]; simpl; intros Hn.
  - now rewrite String.eqb_refl.
  - destruct (String.eqb_spec k x) as [->|]; [tauto|].
    rewrite IH; [reflexivity | tauto].
Qed.

Lemma records_of_day_snoc (k : string) (l : list Expense.t) (e : Expense.t) :
  records_of_day k (l ++ [e]) =
  records_of_day k l ++ (if String.eqb (day_key e) k then [e] else []).
Proof. unfold records_of_day. now rewrite List.filter_app. Qed.

Lemma records_of_day_none (k : string) (l : list Expense.t) :
  ~ In k (map day_key l) -> records_of_day k l = [].
Proof.
  induction l as [|e l IH]; simpl; [reflexivity|]. intros Hn.
  destruct (String.eqb_spec (day_key e) k) as [<-|]; [tauto|].
  apply IH. tauto.
Qed.

Lemma records_of_day_key (k : string) (l : list Expense.t) (e : Expense.t) :
  In e (records_of_day k l) <-> In e l /\ day_key e = k.
Proof.
  unfold records_of_day. rewrite filter_In.
  now rewrite String.eqb_eq.
Qed.

Lemma sum_amounts_snoc (l : list Expense.t) (e : Expense.t) :
  sum_amounts (l ++ [e]) = (sum_amounts l + Expense.amount e)%float.
Proof. unfold sum_amounts. now rewrite fold_left_app. Qed.

Lemma bucket_of_snoc (k : string) (l : list Expense.t) (e : Expense.t) :
  bucket_of k (l ++ [e]) =
  if String.eqb (day_key e) k
  then {| Acc.data_expenses := Acc.data_expenses (bucket_of k l) ++ [e];
          Acc.total_expense :=
            (Acc.total_expense (bucket_of k l) + Expense.amount e)%float |}
  else bucket_of k l.
Proof.
  unfold bucket_of. rewrite records_of_day_snoc. simpl.
  destruct (String.eqb (day_key e) k).
  - now rewrite sum_amounts_snoc.
  - now rewrite app_nil_r.
Qed.

Lemma groupedExpenses_snoc (l : list Expense.t) (e : Expense.t) :
  groupedExpenses (l ++ [e]) = reduce_step (groupedExpenses l) e.
Proof. unfold groupedExpenses. now rewrite fold_left_app. Qed.

(** The accumulator after the pass: one pair per day, in the order of first
    occurrence, holding the records of that day in input order and the
    running sum of their amounts. *)
Lemma groupedExpenses_spec (l : list Expense.t) :
  groupedExpenses l =
  map (fun k => (k, bucket_of k l)) (first_seen (map day_key l)).
Proof.
  induction l as [|e l IH] using rev_ind; [reflexivity|].
  rewrite groupedExpenses_snoc, IH, map_app. simpl map at 3.
  rewrite first_seen_snoc. unfold reduce_step.
  rewrite assoc_get_map.
  destruct (existsb (String.eqb (day_key e)) (first_seen (map day_key l))) eqn:E.
  - rewrite assoc_alter_map by apply first_seen_NoDup.
    apply map_ext. intros k. now rewrite bucket_of_snoc.
  - assert (Hn : ~ In (day_key e) (first_seen (map day_key l))).
    { intros H. apply existsb_eqb_In in H. congruence. }
    rewrite assoc_alter_fresh.
    2:{ unfold Object_keys. rewrite map_map. simpl. now rewrite map_id. }
    rewrite map_app. simpl. f_equal.
    + apply map_ext_in. intros k Hk. rewrite bucket_of_snoc.
      destruct (String.eqb_spec (day_key e) k) as [<-|]; [tauto | reflexivity].
    + rewrite bucket_of_snoc, String.eqb_refl. unfold bucket_of.
      rewrite records_of_day_none; [reflexivity|].
      intros H. apply Hn. now apply first_seen_In.
Qed.

Lemma Object_keys_grouped (l : list Expense.t) :
  Object_keys (groupedExpenses l) = first_seen (map day_key l).
Proof.
  rewrite groupedExpenses_spec. unfold Object_keys.
  rewrite map_map. simpl. apply map_id.
Qed.

(** The output of the aggregation, entry by entry. *)
Lemma data_spec (l : list Expense.t) :
  data l = map (fun k => entry_of k l) (first_seen (map day_key l)).
Proof.
  unfold data. rewrite Object_keys_grouped.
  apply map_ext_in. intros k Hk.
  rewrite groupedExpenses_spec, assoc_get_map.
  apply existsb_eqb_In in Hk. now rewrite Hk.
Qed.

Lemma data_keys (l : list Expense.t) :
  map date_of_expenses (data l) = first_seen (map day_key l).
Proof. rewrite data_spec, map_map. simpl. apply map_id. Qed.

Lemma data_In (l : list Expense.t) (b : DayEntry) :
  In b (data l) <->
  In (date_of_expenses b) (map day_key l) /\ b = entry_of (date_of_expenses b) l.
Proof.
  rewrite data_spec, in_map_iff. split.
  - intros (k & <- & Hk). simpl. split; [now apply first_seen_In | reflexivity].
  - intros [Hk Hb]. exists (date_of_expenses b).
    split; [now symmetry | now apply first_seen_In].
Qed.

Lemma find_entry (k : string) (l : list Expense.t) (ks : list string) :
  List.find (fun b => String.eqb (date_of_expenses b) k)
            (map (fun k' => entry_of k' l) ks) =
  if existsb (String.eqb k) ks then Some (entry_of k l) else None.
Proof.
  induction ks as [|x ks IH]; simpl; [reflexivity|].
  rewrite (String.eqb_sym k x).
  destruct (String.eqb_spec x k) as [->|]; [reflexivity | exact IH].
Qed.

Lemma day_total_data (k : string) (l : list Expense.t) :
  In k (map day_key l) ->
  day_total k (data l) = Some (sum_amounts (records_of_day k l)).
Proof.
  intros Hk. unfold day_total. rewrite data_spec, find_entry.
  apply first_seen_In, existsb_eqb_In in Hk. now rewrite Hk.
Qed.

(** ** The aggregation of [GET /] *)

(** For C1: the total of a day depends on the order of its records.  The
    amounts 2^53, 1, 1 of one day give 9007199254740992 in that order, the
    two additions of 1 being rounded away, and 9007199254740994 with the
    large amount last. *)
Lemma day_total_depends_on_order :
  Permutation [car; gum; pen] [gum; pen; car]
  /\ day_total "2024-03-05" (data [car; gum; pen]) = Some 9007199254740992%float
  /\ day_total "2024-03-05" (data [gum; pen; car]) = Some 9007199254740994%float
  /\ day_total "2024-03-05" (data [car; gum; pen])
     <> day_total "2024-03-05" (data [gum; pen; car]).
Proof.
  split; [|split; [|split]].
  - apply (Permutation_cons_app [gum; pen] [] car). reflexivity.
  - vm_compute. reflexivity.
  - vm_compute. reflexivity.
  - intros H.
    apply (f_equal (fun o => match o with
                             | Some x => PrimFloat.eqb x 9007199254740992
                             | None => false
                             end)) in H.
    vm_compute in H. discriminate.
Qed.

(** C1.  For every list of expense records, each day bucket of the
    aggregation carries as [total_expense] the sum of the amounts of the
    records whose day key is the key of the bucket, added as doubles from
    0 in the order of the input; and the aggregation of any other input
    that lists the records of that day in the same order gives the day the
    same total. *)
Theorem day_total_is_sum_in_input_order
  (l l' : list Expense.t) (b : DayEntry) :
  In b (data l) ->
  records_of_day (date_of_expenses b) l' = records_of_day (date_of_expenses b) l ->
  total_expense b = sum_amounts (records_of_day (date_of_expenses b) l)
  /\ day_total (date_of_expenses b) (data l') = Some (total_expense b).
Proof.
  intros [Hk Hb]%data_In Hsame. split.
  - now rewrite Hb at 1.
  - rewrite day_total_data.
    + rewrite Hb at 2. simpl. now rewrite Hsame.
    + apply in_map_iff in Hk as (e & He & Hin).
      assert (Hin' : In e (records_of_day (date_of_expenses b) l'))
        by (rewrite Hsame; apply records_of_day_key; now split).
      apply records_of_day_key in Hin' as [Hin' _].
      rewrite <- He. now apply in_map.
Qed.

Lemma day_total_is_sum_in_input_order_witness :
  total_expense (entry_of "2024-03-05" [lunch; coffee; dinner]) = 50%float
  /\ day_total "2024-03-05" (data [coffee; lunch; dinner]) = Some 50%float.
Proof.
  apply (day_total_is_sum_in_input_order
           [lunch; coffee; dinner] [coffee; lunch; dinner]
           (entry_of "2024-03-05" [lunch; coffee; dinner])).
  - vm_compute. left. reflexivity.
  - reflexivity.
Defined.

Lemma records_of_day_cons (k : string) (e : Expense.t) (l : list Expense.t) :
  records_of_day k (e :: l) =
  if String.eqb (day_key e) k then e :: records_of_day k l
  else records_of_day k l.
Proof. reflexivity. Qed.

Lemma concat_records_perm (l : list Expense.t) (ks : list string) :
  NoDup ks ->
  (forall e, In e l -> In (day_key e) ks) ->
  Permutation (concat (map (fun k => records_of_day k l) ks)) l.
Proof.
  intros Hnd. induction l as [|e l IH]; intros Hcov.
  - clear Hnd Hcov. induction ks as [|k ks IHks]; simpl; [reflexivity|].
    exact IHks.
  - transitivity (e :: concat (map (fun k => records_of_day k l) ks));
      [|apply perm_skip, IH; intros x Hx; apply Hcov; now right].
    specialize (Hcov e (or_introl eq_refl)).
    clear IH. induction Hnd as [|k ks Hk Hnd IHks]; [destruct Hcov|].
    cbn [map concat]. rewrite records_of_day_cons.
    destruct (String.eqb_spec (day_key e) k) as [<-|Hne].
    + cbn [app]. apply perm_skip. apply Permutation_app_head.
      assert (Hsame : map (fun k => records_of_day k (e :: l)) ks =
                      map (fun k => records_of_day k l) ks).
      { apply map_ext_in. intros k' Hk'. rewrite records_of_day_cons.
        destruct (String.eqb_spec (day_key e) k') as [<-|]; [|reflexivity].
        exfalso. apply Hk. now apply list_elem_of_In. }
      now rewrite Hsame.
    + destruct Hcov as [->|Hin]; [congruence|].
      rewrite (IHks Hin). symmetry. apply Permutation_middle.
Qed.

Lemma concat_sorted_perm (l : list Expense.t) (ks : list string) :
  Permutation
    (concat (map (fun k => Array_sort newest_first (records_of_day k l)) ks))
    (concat (map (fun k => records_of_day k l) ks)).
Proof.
  induction ks as [|k ks IH]; simpl; [reflexivity|].
  apply Permutation_app; [apply Array_sort_perm | exact IH].
Qed.

Lemma same_key_same_entry {A B} (f : A -> B) (l : list A) (x y : A) :
  NoDup (map f l) -> In x l -> In y l -> f x = f y -> x = y.
Proof.
  induction l as [|a l IH]; simpl; [tauto|].
  intros Hnd Hx Hy Hf. apply NoDup_cons in Hnd as [Ha Hnd].
  destruct Hx as [->|Hx], Hy as [->|Hy]; auto.
  - exfalso. apply Ha, list_elem_of_In. rewrite Hf. now apply in_map.
  - exfalso. apply Ha, list_elem_of_In. rewrite <- Hf. now apply in_map.
Qed.

(** C2.  The aggregation partitions its input: the buckets together hold
    the input records, as a multiset; no two buckets share a day key; and
    every input record lies in exactly one bucket. *)
Theorem grouping_is_a_partition (l : list Expense.t) :
  Permutation (concat (map data_expenses (data l))) l
  /\ NoDup (map date_of_expenses (data l))
  /\ forall e, In e l ->
       exists b, In b (data l) /\ In e (data_expenses b)
                 /\ forall b', In b' (data l) -> In e (data_expenses b') -> b' = b.
Proof.
  assert (Hnd : NoDup (map date_of_expenses (data l))).
  { rewrite data_keys. apply first_seen_NoDup. }
  split; [|split; [exact Hnd|]].
  - rewrite data_spec, map_map. simpl. rewrite concat_sorted_perm.
    apply concat_records_perm; [apply first_seen_NoDup|].
    intros e He. apply first_seen_In. now apply in_map.
  - intros e He.
    assert (Hmem : forall b', In b' (data l) -> In e (data_expenses b') ->
                              date_of_expenses b' = day_key e).
    { intros b' [_ Hb']%data_In Hin. rewrite Hb' in Hin. simpl in Hin.
      apply Array_sort_In, records_of_day_key in Hin. now symmetry. }
    exists (entry_of (day_key e) l). repeat split.
    + apply data_In. simpl. split; [now apply in_map | reflexivity].
    + simpl. apply Array_sort_In, records_of_day_key. now split.
    + intros b' Hb' Hin.
      apply (same_key_same_entry date_of_expenses (data l)); auto.
      apply data_In. simpl. split; [now apply in_map | reflexivity].
Qed.

Lemma grouping_is_a_partition_witness :
  exists b, In b (data [lunch; coffee; dinner]) /\ In dinner (data_expenses b)
            /\ forall b', In b' (data [lunch; coffee; dinner]) ->
                          In dinner (data_expenses b') -> b' = b.
Proof.
  apply (grouping_is_a_partition [lunch; coffee; dinner]).
  vm_compute. right. right. left. reflexivity.
Defined.

(** C3.  Whatever the order of the input, the records of every bucket are
    sorted newest first by their full timestamp; records of equal
    timestamp may come in any order. *)
Theorem buckets_are_sorted_descending (l : list Expense.t) (b : DayEntry) :
  In b (data l) -> descending (data_expenses b).
Proof.
  intros [_ ->]%data_In. simpl. apply sort_newest_first_descending.
Qed.

Lemma buckets_are_sorted_descending_witness :
  descending [dinner; lunch].
Proof.
  apply (buckets_are_sorted_descending [lunch; coffee; dinner]
           (entry_of "2024-03-05" [lunch; coffee; dinner])).
  vm_compute. left. reflexivity.
Defined.

(** C4.  The output holds one bucket per day, and the buckets come out in
    the order in which their day keys are first seen in the input: the
    keys of the output are the day keys of the input, each at its first
    occurrence, so that the bucket of [k1] precedes the bucket of [k2]
    exactly when the first record of day [k1] precedes the first record
    of day [k2]. *)
Theorem buckets_in_first_seen_order (l : list Expense.t) :
  map date_of_expenses (data l) = first_seen (map day_key l)
  /\ NoDup (map date_of_expenses (data l))
  /\ forall (k1 k2 : string) (i1 i2 : nat),
       index_of k1 (map day_key l) = Some i1 ->
       index_of k2 (map day_key l) = Some i2 ->
       exists j1 j2,
         index_of k1 (map date_of_expenses (data l)) = Some j1 /\
         index_of k2 (map date_of_expenses (data l)) = Some j2 /\
         ((j1 < j2)%nat <-> (i1 < i2)%nat).
Proof.
  rewrite data_keys. split; [reflexivity|]. split.
  - apply first_seen_NoDup.
  - intros k1 k2 i1 i2. apply first_seen_order.
Qed.

Lemma buckets_in_first_seen_order_witness :
  exists j1 j2,
    index_of "2024-03-06" (map date_of_expenses (data [lunch; coffee; dinner]))
      = Some j1 /\
    index_of "2024-03-05" (map date_of_expenses (data [lunch; coffee; dinner]))
      = Some j2 /\
    ((j1 < j2)%nat <-> (1 < 0)%nat).
Proof.
  apply (buckets_in_first_seen_order [lunch; coffee; dinner]); reflexivity.
Defined.
(** ** ObjectIds *)

Lemma Is_true_unique (b : bool) (p q : Is_true b) : p = q.
Proof. destruct b; [now destruct p, q | destruct p]. Qed.

(** An id is its text. *)
Lemma ObjectId_eq (a b : ObjectId.t) :
  ObjectId.toString a = ObjectId.toString b -> a = b.
Proof.
  destruct a as [s Hs], b as [s' Hs']. simpl. intros <-.
  f_equal. apply Is_true_unique.
Qed.

Lemma ObjectId_eqb_eq (a b : ObjectId.t) : ObjectId.eqb a b = true <-> a = b.
Proof.
  unfold ObjectId.eqb. rewrite String.eqb_eq. split.
  - apply ObjectId_eq.
  - now intros ->.
Qed.

Lemma ObjectId_eqb_refl (a : ObjectId.t) : ObjectId.eqb a a = true.
Proof. now apply ObjectId_eqb_eq. Qed.

Lemma ObjectId_eqb_neq (a b : ObjectId.t) : ObjectId.eqb a b = false <-> a <> b.
Proof.
  rewrite <- ObjectId_eqb_eq. now destruct (ObjectId.eqb a b).
Qed.

Lemma lower_of_lower_hex (c : ascii) :
  ObjectId.is_lower_hex c = true -> ObjectId.lower c = c.
Proof.
  unfold ObjectId.is_lower_hex, ObjectId.lower, ObjectId.is_upper_hex.
  intros H. cbv zeta in *.
  destruct ((65 <=? nat_of_ascii c)%nat && (nat_of_ascii c <=? 70)%nat) eqn:E;
    [|reflexivity].
  apply andb_true_iff in E as [E1 E2].
  apply Nat.leb_le in E1, E2.
  apply orb_true_iff in H as [H|H]; apply andb_true_iff in H as [H1 H2];
    apply Nat.leb_le in H1, H2; lia.
Qed.

Lemma lower_of_canonical (s : string) :
  ObjectId.all_chars ObjectId.is_lower_hex s = true ->
  ObjectId.map_chars ObjectId.lower s = s.
Proof.
  induction s as [|c s IH]; simpl; [reflexivity|].
  intros [Hc Hs]%andb_true_iff.
  now rewrite lower_of_lower_hex, IH.
Qed.

(** The text of an id casts back to the id. *)
Lemma cast_toString (o : ObjectId.t) :
  ObjectId.cast (ObjectId.toString o) = Ok o.
Proof.
  destruct o as [s Hs]. unfold ObjectId.cast. simpl.
  assert (Hl : ObjectId.map_chars ObjectId.lower s = s).
  { apply lower_of_canonical. unfold ObjectId.canonical in Hs.
    destruct (String.length s =? 24)%nat; [|destruct Hs]. simpl in Hs.
    now apply Is_true_eq_true. }
  rewrite Hl.
  destruct (ObjectId.Is_true_dec (ObjectId.canonical s)) as [H|H];
    [|contradiction].
  f_equal. now apply ObjectId_eq.
Qed.

(** A string that casts names the id whose text is its lower-case form. *)
Lemma cast_Ok (s : string) (o : ObjectId.t) :
  ObjectId.cast s = Ok o ->
  ObjectId.toString o = ObjectId.map_chars ObjectId.lower s.
Proof.
  unfold ObjectId.cast.
  destruct (ObjectId.Is_true_dec _); [|discriminate].
  now intros [= <-].
Qed.

(** ** The listings *)

Lemma data_nonempty (l : list Expense.t) : l <> [] -> data l <> [].
Proof.
  intros Hl Hd. destruct l as [|e l]; [congruence|].
  assert (Hin : In (day_key e) (map date_of_expenses (data (e :: l)))).
  { rewrite data_keys. apply first_seen_In. now left. }
  now rewrite Hd in Hin.
Qed.

Lemma data_bucket_nonempty (l : list Expense.t) (b : DayEntry) :
  In b (data l) -> data_expenses b <> [].
Proof.
  intros [Hk ->]%data_In. simpl.
  apply in_map_iff in Hk as (e & He & Hin).
  intros Hnil.
  assert (H : In e (Array_sort newest_first
                      (records_of_day (date_of_expenses b) l))).
  { apply Array_sort_In, records_of_day_key. now split. }
  now rewrite Hnil in H.
Qed.

(** The upper bound of the window is itself selected by [$lte], and
    refused by [$lt]. *)
Lemma upper_bound_selected (uid : ObjectId.t) (s e : Z) (x : Expense.t) :
  Expense.user_id x = uid -> s <= e -> Expense.date_of_expense x = e ->
  current_month_query uid s e x = true /\ month_query uid s e x = false.
Proof.
  intros <- Hse <-. unfold current_month_query, month_query.
  rewrite ObjectId_eqb_refl. simpl.
  rewrite Z.ltb_irrefl, Z.leb_refl, andb_false_r, andb_true_r.
  split; [now apply Z.leb_le | reflexivity].
Qed.

(** C5.  The window of [GET /] ends at the first instant of the next month
    and is closed there, so a record dated at that instant is listed with
    the current month: a process started on 5 March 2024 (UTC) lists the
    expense dated 2024-04-01T00:00:00.000Z, which [GET /month/3] leaves
    out. *)
Theorem current_month_listing_selects_next_month_start :
  getCurrentMonthDateRange 0 march_5th = (Some 1709251200000, Some april_1st)
  /\ JsDate.toISODate 1709251200000 = "2024-03-01"%string
  /\ JsDate.toISODate april_1st = "2024-04-01"%string
  /\ get_root (boot 0 march_5th) (store_of [rent]) alice =
     respond 200
       (MessageData "success get all expenses"
          (Days [ {| date_of_expenses := "2024-04-01";
                     total_expense := 700;
                     data_expenses := [rent] |} ]))
  /\ get_month (boot 0 march_5th) march_5th (store_of [rent]) alice (Some 3) =
     respond 404 (MessageData "expense not found" (Rows [])).
Proof. repeat split; vm_compute; reflexivity. Qed.

(** C6.  In both listings a query that yields no record is answered 404,
    and a 200 answer never carries an empty list: [GET /] then holds at
    least one day, each with at least one record, and [GET /month/:month]
    at least one record. *)
Theorem empty_listing_is_not_found
  (p : Process) (t : Z) (d : DB) (uid : ObjectId.t) (month : option Z) :
  (find_between d (current_month_query uid)
     (startOfMonth p) (endOfMonth p) desc = Ok [] ->
   status (get_root p d uid) = 404)
  /\ (find_between d (month_query uid)
        (fst (month_range (tz p) (JsDate.getFullYear (tz p) t) month))
        (snd (month_range (tz p) (JsDate.getFullYear (tz p) t) month))
        asc = Ok [] ->
      status (get_month p t d uid month) = 404)
  /\ (status (get_root p d uid) = 200 ->
      exists days,
        json (get_root p d uid) =
          MessageData "success get all expenses" (Days days)
        /\ days <> []
        /\ forall b, In b days -> data_expenses b <> [])
  /\ (status (get_month p t d uid month) = 200 ->
      exists rows,
        json (get_month p t d uid month) =
          MessageData "success get all expenses" (Rows rows)
        /\ rows <> []).
Proof.
  unfold get_root, get_month.
  destruct (month_range (tz p) (JsDate.getFullYear (tz p) t) month)
    as [s e]. simpl fst. simpl snd.
  repeat split.
  - now intros ->.
  - now intros ->.
  - destruct (find_between d (current_month_query uid) _ _ desc)
      as [[|x l]|msg]; simpl; try discriminate.
    intros _. exists (data (x :: l)). repeat split.
    + now apply data_nonempty.
    + apply data_bucket_nonempty.
  - destruct (find_between d (month_query uid) s e asc)
      as [[|x l]|msg]; simpl; try discriminate.
    intros _. now exists (x :: l).
Qed.

Lemma empty_listing_is_not_found_witness :
  status (get_root (boot 0 march_5th) (store_of []) alice) = 404
  /\ status (get_month (boot 0 march_5th) march_5th (store_of []) alice (Some 3))
     = 404
  /\ (exists days,
        json (get_root (boot 0 march_5th) (store_of [lunch]) alice) =
          MessageData "success get all expenses" (Days days)
        /\ days <> []
        /\ forall b, In b days -> data_expenses b <> [])
  /\ (exists rows,
        json (get_month (boot 0 march_5th) march_5th (store_of [lunch]) alice
                (Some 3)) =
          MessageData "success get all expenses" (Rows rows)
        /\ rows <> []).
Proof.
  split; [|split; [|split]].
  - apply (empty_listing_is_not_found
             (boot 0 march_5th) march_5th (store_of []) alice (Some 3)).
    reflexivity.
  - apply (empty_listing_is_not_found
             (boot 0 march_5th) march_5th (store_of []) alice (Some 3)).
    reflexivity.
  - apply (empty_listing_is_not_found
             (boot 0 march_5th) march_5th (store_of [lunch]) alice (Some 3)).
    reflexivity.
  - apply (empty_listing_is_not_found
             (boot 0 march_5th) march_5th (store_of [lunch]) alice (Some 3)).
    reflexivity.
Defined.

(** ** [PATCH /:id] *)

Lemma prop_absent (body : gmap string JsVal) (k : string) :
  body !! k = None -> prop body k = JUndefined.
Proof. unfold prop. now intros ->. Qed.

Lemma prop_present (body : gmap string JsVal) (k : string) (v : JsVal) :
  body !! k = Some v -> prop body k = v.
Proof. unfold prop. now intros ->. Qed.

(** The field check looks at nothing but the truthiness of the four
    fields. *)
Lemma no_field_filled_spec (body : gmap string JsVal) :
  no_field_filled body = true <->
  forall k, In k mutable_fields -> truthy (prop body k) = false.
Proof.
  unfold no_field_filled, mutable_fields.
  rewrite !andb_true_iff, !negb_true_iff. simpl. split.
  - intros [[[H1 H2] H3] H4] k [<-|[<-|[<-|[<-|[]]]]]; assumption.
  - intros H. repeat split; apply H; tauto.
Qed.

(** A body that fails the field check is answered 400 and the store is
    left as it was, whatever the validation gate says. *)
Lemma patch_rejected_unfilled (S : Schemas) (t : Z) (d : DB)
  (uid : ObjectId.t) (id : string) (body : gmap string JsVal) :
  no_field_filled body = true ->
  exists r,
    patch_by_id S t d uid id body = (d, Ok r) /\ status r = 400
    /\ (updateExpenseSchema S body = [] ->
        json r = Message "at least one field must be filled").
Proof.
  intros Hno. unfold patch_by_id.
  destruct (updateExpenseSchema S body) as [|err errs].
  - rewrite Hno. eexists. repeat split.
  - eexists. repeat split. discriminate.
Qed.

(** C7.  A [PATCH /:id] whose body holds none of [amount],
    [expense_name], [date_of_expense] and [category_id] is answered 400 and
    the store is not updated. *)
Theorem patch_without_mutable_field_is_400
  (S : Schemas) (t : Z) (d : DB) (uid : ObjectId.t) (id : string)
  (body : gmap string JsVal) :
  (forall k, In k mutable_fields -> body !! k = None) ->
  exists r, patch_by_id S t d uid id body = (d, Ok r) /\ status r = 400.
Proof.
  intros Habsent.
  destruct (patch_rejected_unfilled S t d uid id body) as (r & Hr & Hs & _).
  - apply no_field_filled_spec. intros k Hk.
    now rewrite prop_absent by auto.
  - now exists r.
Qed.

Lemma patch_without_mutable_field_is_400_witness :
  exists r,
    patch_by_id plain april_2nd (store_of [lunch]) alice (ObjectId.toString e1) ∅
      = (store_of [lunch], Ok r)
    /\ status r = 400.
Proof.
  apply (patch_without_mutable_field_is_400
           plain april_2nd (store_of [lunch]) alice (ObjectId.toString e1) ∅).
  intros k _. reflexivity.
Defined.

(** C10.  A [PATCH /:id] whose body supplies one mutable field, with a
    falsy value such as the number 0 or the empty string, and no other
    mutable field is answered 400 and changes nothing; once it is past the
    validation gate the answer is "at least one field must be filled",
    because the check tests truthiness and not the presence of the key. *)
Theorem patch_with_one_falsy_field_is_400
  (S : Schemas) (t : Z) (d : DB) (uid : ObjectId.t) (id : string)
  (body : gmap string JsVal) (k : string) (v : JsVal) :
  In k mutable_fields ->
  body !! k = Some v ->
  truthy v = false ->
  (forall k', In k' mutable_fields -> k' <> k -> body !! k' = None) ->
  exists r,
    patch_by_id S t d uid id body = (d, Ok r) /\ status r = 400
    /\ (updateExpenseSchema S body = [] ->
        json r = Message "at least one field must be filled").
Proof.
  intros Hk Hv Hfalsy Hothers.
  apply patch_rejected_unfilled, no_field_filled_spec.
  intros k' Hk'. destruct (string_dec k' k) as [->|Hne].
  - now rewrite (prop_present _ _ _ Hv).
  - now rewrite prop_absent by auto.
Qed.

Lemma patch_with_one_falsy_field_is_400_witness :
  (exists r,
     patch_by_id plain april_2nd (store_of [lunch]) alice (ObjectId.toString e1)
       (<["amount" := JNum 0]> ∅) = (store_of [lunch], Ok r)
     /\ status r = 400
     /\ (updateExpenseSchema plain (<["amount" := JNum 0]> ∅) = [] ->
         json r = Message "at least one field must be filled"))
  /\ (exists r,
        patch_by_id plain april_2nd (store_of [lunch]) alice (ObjectId.toString e1)
          (<["expense_name" := JStr ""]> ∅) = (store_of [lunch], Ok r)
        /\ status r = 400
        /\ (updateExpenseSchema plain (<["expense_name" := JStr ""]> ∅) = [] ->
            json r = Message "at least one field must be filled")).
Proof.
  split.
  - apply (patch_with_one_falsy_field_is_400
             plain april_2nd (store_of [lunch]) alice (ObjectId.toString e1)
             (<["amount" := JNum 0]> ∅) "amount" (JNum 0)).
    + simpl. tauto.
    + reflexivity.
    + reflexivity.
    + intros k' Hk' Hne. simpl in Hk'.
      destruct Hk' as [<-|[<-|[<-|[<-|[]]]]];
        [congruence | reflexivity | reflexivity | reflexivity].
  - apply (patch_with_one_falsy_field_is_400
             plain april_2nd (store_of [lunch]) alice (ObjectId.toString e1)
             (<["expense_name" := JStr ""]> ∅) "expense_name" (JStr "")).
    + simpl. tauto.
    + reflexivity.
    + reflexivity.
    + intros k' Hk' Hne. simpl in Hk'.
      destruct Hk' as [<-|[<-|[<-|[<-|[]]]]];
        [reflexivity | congruence | reflexivity | reflexivity].
Defined.

(** The number 0 is read as an absent field, the number 1 is not. *)
Example patch_amount_zero :
  patch_by_id plain april_2nd (store_of [lunch]) alice (ObjectId.toString e1)
    (<["amount" := JNum 0]> ∅)
  = (store_of [lunch],
     Ok (respond 400 (Message "at least one field must be filled"))).
Proof. vm_compute. reflexivity. Qed.

(** ** Scopes of the queries by id *)

Lemma owner_query_spec (uid id : ObjectId.t) (x : Expense.t) :
  owner_query uid id x = true <->
  Expense._id x = id /\ Expense.user_id x = uid.
Proof.
  unfold owner_query. now rewrite andb_true_iff, !ObjectId_eqb_eq.
Qed.

(** The update filter reads the expense's own [created_by], never its
    owner nor its category. *)
Lemma update_query_spec (uid id : ObjectId.t) (x : Expense.t) :
  update_query uid id x = true <->
  Expense._id x = id
  /\ (Expense.created_by x = Some uid \/ Expense.created_by x = None).
Proof.
  unfold update_query. rewrite andb_true_iff, ObjectId_eqb_eq.
  destruct (Expense.created_by x) as [u|].
  - rewrite ObjectId_eqb_eq. split.
    + intros [? ->]. auto.
    + intros [? [[= ->]|[=]]]. auto.
  - intuition.
Qed.

(** C8.  [GET /:id] and [DELETE /:id] match the caller's expenses only;
    the filter of [PATCH /:id] does not test the owner or the category,
    and matches an expense that another user created in a category of
    their own: Alice's update of Bob's expense [e9] is answered 200 and
    written to the store. *)
Theorem update_reaches_another_users_expense :
  post_root plain e9 (store_of []) bob book_body
    = (store_of [bobs_book],
       Ok (respond 201 (MessageData "success create expense" (Row bobs_book))))
  /\ Expense.user_id bobs_book <> alice
  /\ List.find (category_query alice (Some (Expense.category_id bobs_book)))
       (categories (store_of [bobs_book])) = None
  /\ update_query alice e9 bobs_book = true
  /\ patch_by_id plain april_2nd (store_of [bobs_book]) alice
       (ObjectId.toString e9) one_unit
     = (store_of [bobs_book_patched],
        Ok (respond 200
              (MessageData "success update expense" (Row bobs_book_patched))))
  /\ status (get_by_id (store_of [bobs_book]) alice (ObjectId.toString e9)) = 404
  /\ delete_by_id (store_of [bobs_book]) alice (ObjectId.toString e9)
     = (store_of [bobs_book], respond 404 (Message "expense not found")).
Proof. repeat split; try (vm_compute; reflexivity). discriminate. Qed.

(** ** The month window of the process *)

Lemma serve_process (S : Schemas) (st : State) (env : Env) (r : Request) :
  process (fst (serve S st env r)) = process st.
Proof.
  destruct r; simpl; try reflexivity.
  - now destruct (post_root S (fresh_id env) (db st) uid body).
  - now destruct (patch_by_id S (now env) (db st) uid id body).
  - now destruct (delete_by_id (db st) uid id).
Qed.

Lemma run_process (S : Schemas) (evs : list (Env * Request)) (st : State) :
  process (fst (run S st evs)) = process st.
Proof.
  revert st. induction evs as [|[env r] evs IH]; intros st; [reflexivity|].
  simpl. pose proof (serve_process S st env r) as Hs.
  destruct (serve S st env r) as [st1 out]. simpl in Hs.
  specialize (IH st1). destruct (run S st1 evs) as [st2 outs].
  simpl in *. congruence.
Qed.

(** C9.  The window of [GET /] is fixed when the process starts: after any
    sequence of requests, and at whatever instant the clock then shows,
    [GET /] is answered from the bounds that [getCurrentMonthDateRange]
    gave at the start. *)
Theorem month_window_is_fixed_at_start
  (S : Schemas) (zone t0 : Z) (d : DB) (evs : list (Env * Request))
  (env : Env) (uid : ObjectId.t) :
  let st := fst (run S (start zone t0 d) evs) in
  startOfMonth (process st) = fst (getCurrentMonthDateRange zone t0)
  /\ endOfMonth (process st) = snd (getCurrentMonthDateRange zone t0)
  /\ serve S st env (GetRoot uid) =
     (st, Ok (get_root (boot zone t0) (db st) uid)).
Proof.
  intros st. unfold st. simpl serve.
  rewrite run_process. simpl. repeat split.
Qed.

(** A process started in March 2024 still answers from the March window
    in April: the expense of 2 April is not found, where a process started
    that day lists it. *)
Example stale_window_in_april :
  snd (serve plain (start 0 march_5th (store_of [tea]))
         {| now := april_2nd; fresh_id := e6 |} (GetRoot alice))
  = Ok (respond 404 (MessageData "expense not found" (Rows [])))
  /\ status (get_root (boot 0 april_2nd) (store_of [tea]) alice) = 200.
Proof. split; vm_compute; reflexivity. Qed.

(** * Further properties *)

(** ** More on the aggregation *)

(** X1.  Every record of a bucket is an input record that falls on the day of
    the bucket. *)
Theorem bucket_holds_records_of_its_day
  (l : list Expense.t) (b : DayEntry) (e : Expense.t) :
  In b (data l) -> In e (data_expenses b) ->
  In e l /\ day_key e = date_of_expenses b.
Proof.
  intros [_ Hb]%data_In He. rewrite Hb in He. simpl in He.
  now apply Array_sort_In, records_of_day_key in He.
Qed.

Lemma bucket_holds_records_of_its_day_witness :
  In dinner [lunch; coffee; dinner] /\ day_key dinner = "2024-03-05"%string.
Proof.
  apply (bucket_holds_records_of_its_day [lunch; coffee; dinner]
           (entry_of "2024-03-05" [lunch; coffee; dinner]) dinner).
  - vm_compute. left. reflexivity.
  - vm_compute. left. reflexivity.
Defined.

(** X2.  A day is in the output exactly when some input record falls on it. *)
Theorem day_listed_iff_some_record (l : list Expense.t) (k : string) :
  In k (map date_of_expenses (data l)) <-> exists e, In e l /\ day_key e = k.
Proof.
  rewrite data_keys, first_seen_In, in_map_iff.
  split; intros (e & H1 & H2); exists e; tauto.
Qed.

Section ArraySortMore.

Context {A : Type} (cmp : A -> A -> Z) (rank : A -> Z).
Hypothesis cmp_rank : forall a b, cmp a b <= 0 <-> rank b <= rank a.

(** Sorting a list that is in order already changes nothing. *)
Lemma Array_sort_sorted_id (l : list A) :
  StronglySorted (fun a b => rank b <= rank a) l -> Array_sort cmp l = l.
Proof.
  induction 1 as [|x l Hs IH Hx]; [reflexivity|].
  simpl. fold (Array_sort cmp l). rewrite IH.
  destruct l as [|y l]; [reflexivity|]. simpl.
  apply Forall_cons in Hx as [Hy _].
  apply cmp_rank, Z.leb_le in Hy. now rewrite Hy.
Qed.

(** The sort is stable: elements of one rank keep their order. *)
Lemma sort_insert_same_rank (r : Z) (x : A) (l : list A) :
  List.filter (fun a => rank a =? r) (sort_insert cmp x l) =
  List.filter (fun a => rank a =? r) (x :: l).
Proof.
  induction l as [|y l IH]; [reflexivity|].
  simpl sort_insert. destruct (Z.leb_spec (cmp x y) 0) as [Hle|Hgt];
    [reflexivity|].
  assert (Hxy : rank x < rank y).
  { destruct (Z.lt_ge_cases (rank x) (rank y)) as [?|Hge]; [assumption|].
    apply cmp_rank in Hge. lia. }
  cbn [List.filter] in *. rewrite IH.
  destruct (Z.eqb_spec (rank x) r), (Z.eqb_spec (rank y) r);
    try reflexivity. lia.
Qed.

Lemma Array_sort_stable (r : Z) (l : list A) :
  List.filter (fun a => rank a =? r) (Array_sort cmp l) =
  List.filter (fun a => rank a =? r) l.
Proof.
  induction l as [|x l IH]; [reflexivity|].
  simpl Array_sort. fold (Array_sort cmp l).
  rewrite sort_insert_same_rank. cbn [List.filter]. now rewrite IH.
Qed.

End ArraySortMore.

Lemma newest_first_rank (a b : Expense.t) :
  newest_first a b <= 0 <-> Expense.date_of_expense b <= Expense.date_of_expense a.
Proof. unfold newest_first. lia. Qed.

Lemma records_of_day_descending (k : string) (l : list Expense.t) :
  descending l -> descending (records_of_day k l).
Proof.
  unfold descending, records_of_day.
  induction 1 as [|x l Hs IH Hx]; simpl; [constructor|].
  destruct (String.eqb (day_key x) k); [|exact IH].
  constructor; [exact IH|].
  apply List.Forall_forall. intros y [Hy _]%filter_In.
  revert y Hy. now apply List.Forall_forall.
Qed.

(** X4.  On an input that is newest first already, as the store returns it,
    the sort inside each bucket moves nothing: a bucket lists the records
    of its day in input order. *)
Theorem sorted_input_keeps_its_order (l : list Expense.t) (b : DayEntry) :
  descending l -> In b (data l) ->
  data_expenses b = records_of_day (date_of_expenses b) l.
Proof.
  intros Hl [_ Hb]%data_In. rewrite Hb at 1. simpl.
  apply (Array_sort_sorted_id newest_first Expense.date_of_expense
           newest_first_rank).
  now apply records_of_day_descending.
Qed.

Lemma sorted_input_keeps_its_order_witness :
  data_expenses (entry_of "2024-03-05" [coffee; dinner; lunch])
  = [dinner; lunch].
Proof.
  apply (sorted_input_keeps_its_order [coffee; dinner; lunch]
           (entry_of "2024-03-05" [coffee; dinner; lunch])).
  - unfold descending. repeat constructor; vm_compute; discriminate.
  - vm_compute. right. left. reflexivity.
Defined.

(** X5.  Records of a bucket that carry the same timestamp come out in the
    order in which the input had them. *)
Theorem equal_timestamps_keep_input_order
  (l : list Expense.t) (b : DayEntry) (t : Z) :
  In b (data l) ->
  records_at t (data_expenses b) =
  records_at t (records_of_day (date_of_expenses b) l).
Proof.
  intros [_ Hb]%data_In. rewrite Hb at 1. simpl.
  apply (Array_sort_stable newest_first Expense.date_of_expense
           newest_first_rank).
Qed.

Lemma equal_timestamps_keep_input_order_witness :
  records_at march_5th
    (data_expenses (entry_of "2024-03-05" [bus; dinner; lunch]))
  = [bus; lunch].
Proof.
  apply (equal_timestamps_keep_input_order [bus; dinner; lunch]
           (entry_of "2024-03-05" [bus; dinner; lunch]) march_5th).
  vm_compute. left. reflexivity.
Defined.

(** ** The calendar *)

Lemma MakeDay_in_year (y k : Z) :
  0 <= k <= 11 -> JsDate.MakeDay y k 1 = JsDate.days_from_civil y (k + 1) 1.
Proof.
  intros Hk. unfold JsDate.MakeDay. cbv zeta.
  rewrite Z.div_small, Z.mod_small by lia.
  replace (y + 0) with y by lia. lia.
Qed.

Lemma MakeDay_next_year (y : Z) :
  JsDate.MakeDay y 12 1 = JsDate.days_from_civil (y + 1) 1 1.
Proof.
  unfold JsDate.MakeDay. cbv zeta.
  change (12 / 12) with 1. change (12 mod 12 + 1) with 1. lia.
Qed.

(** The first day of a month from March on, and of January or February,
    in terms of the year counted from March: [era] full cycles of 400
    years and [yoe] years into the cycle. *)
Lemma first_of_month_from_march (era yoe m : Z) :
  0 <= yoe <= 399 -> 3 <= m <= 12 ->
  JsDate.days_from_civil (yoe + era * 400) m 1 =
  era * 146097 + (yoe * 365 + yoe / 4 - yoe / 100 + (153 * (m - 3) + 2) / 5)
  - 719468.
Proof.
  intros Hy Hm. unfold JsDate.days_from_civil.
  destruct (Z.leb_spec m 2); [lia|]. destruct (Z.ltb_spec 2 m); [|lia].
  cbv zeta.
  assert (He : (yoe + era * 400) / 400 = era)
    by (Z.to_euclidean_division_equations; lia).
  rewrite He.
  replace (yoe + era * 400 - era * 400) with yoe by lia. lia.
Qed.

Lemma first_of_month_before_march (era yoe m : Z) :
  0 <= yoe <= 399 -> 1 <= m <= 2 ->
  JsDate.days_from_civil (yoe + era * 400 + 1) m 1 =
  era * 146097 + (yoe * 365 + yoe / 4 - yoe / 100 + (153 * (m + 9) + 2) / 5)
  - 719468.
Proof.
  intros Hy Hm. unfold JsDate.days_from_civil.
  destruct (Z.leb_spec m 2); [|lia]. destruct (Z.ltb_spec 2 m); [lia|].
  cbv zeta.
  replace (yoe + era * 400 + 1 - 1) with (yoe + era * 400) by lia.
  assert (He : (yoe + era * 400) / 400 = era)
    by (Z.to_euclidean_division_equations; lia).
  rewrite He.
  replace (yoe + era * 400 - era * 400) with yoe by lia. lia.
Qed.

Ltac calc t := let v := eval vm_compute in t in change t with v in *.

(** The first day of the month of day [z] is not after [z], the first day
    of the next month is after it, and the year of a day since the epoch
    is past the years that [new Date(year, ...)] reads as 19xx. *)
Lemma month_brackets_day (z : Z) :
  let '(y, m, d) := JsDate.civil_from_days z in
  1 <= m <= 12
  /\ JsDate.MakeDay y (m - 1) 1 <= z < JsDate.MakeDay y m 1
  /\ (0 <= z -> 100 <= y).
Proof.
  unfold JsDate.civil_from_days. cbv zeta.
  set (z' := z + 719468).
  set (era := z' / 146097).
  set (doe := z' - era * 146097).
  assert (Hdoe : 0 <= doe < 146097).
  { unfold doe, era. Z.to_euclidean_division_equations; lia. }
  assert (Hera : 0 <= z -> 4 <= era).
  { unfold era, z'. Z.to_euclidean_division_equations; lia. }
  assert (Hz : z = era * 146097 + doe - 719468) by (unfold doe, z'; lia).
  clearbody doe era. clear z'.
  set (yoe := (doe - doe / 1460 + doe / 36524 - doe / 146096) / 365).
  set (doy := doe - (365 * yoe + yoe / 4 - yoe / 100)).
  assert (Hy : 0 <= yoe <= 399 /\ 0 <= doy <= 365 /\
               (yoe < 399 -> doe < 365 * (yoe + 1) + (yoe + 1) / 4 - (yoe + 1) / 100)).
  { unfold doy, yoe. Z.to_euclidean_division_equations; lia. }
  destruct Hy as (Hyoe & Hdoy & Hlen).
  assert (Hdoe' : doe = yoe * 365 + yoe / 4 - yoe / 100 + doy)
    by (unfold doy; lia).
  clearbody doy. clearbody yoe.
  remember ((5 * doy + 2) / 153) as mp eqn:Emp.
  assert (Hmp : 0 <= mp <= 11)
    by (subst mp; Z.to_euclidean_division_equations; lia).
  assert (Hlo : (153 * mp + 2) / 5 <= doy)
    by (subst mp; Z.to_euclidean_division_equations; lia).
  assert (Hhi : doy < (153 * (mp + 1) + 2) / 5)
    by (subst mp; Z.to_euclidean_division_equations; lia).
  clear Emp.
  destruct (Z.ltb_spec mp 10) as [Hlt|Hge].
  - (* March to December *)
    destruct (Z.leb_spec (mp + 3) 2); [lia|].
    split; [lia|]. split; [|intros H0; specialize (Hera H0); lia].
    rewrite MakeDay_in_year by lia.
    replace (mp + 3 - 1 + 1) with (mp + 3) by lia.
    rewrite first_of_month_from_march by lia.
    replace (mp + 3 - 3) with mp by lia.
    split; [lia|].
    destruct (Z.eq_dec mp 9) as [->|Hne].
    + rewrite MakeDay_next_year, first_of_month_before_march by lia.
      calc ((153 * (1 + 9) + 2) / 5). calc ((153 * (9 + 1) + 2) / 5). lia.
    + rewrite MakeDay_in_year by lia.
      rewrite first_of_month_from_march by lia.
      replace (mp + 3 + 1 - 3) with (mp + 1) by lia. lia.
  - (* January and February *)
    destruct (Z.leb_spec (mp - 9) 2); [|lia].
    split; [lia|]. split; [|intros H0; specialize (Hera H0); lia].
    rewrite !MakeDay_in_year by lia.
    replace (mp - 9 - 1 + 1) with (mp - 9) by lia.
    rewrite first_of_month_before_march by lia.
    replace (mp - 9 + 9) with mp by lia.
    split; [lia|].
    destruct (Z.eq_dec mp 10) as [->|Hne].
    + calc (10 - 9 + 1).
      rewrite first_of_month_before_march by lia.
      calc ((153 * (2 + 9) + 2) / 5). calc ((153 * (10 + 1) + 2) / 5). lia.
    + assert (mp = 11) as -> by lia. calc (11 - 9 + 1).
      calc ((153 * (11 + 1) + 2) / 5).
      destruct (Z.eq_dec yoe 399) as [->|Hy399].
      * replace (399 + era * 400 + 1) with (0 + (era + 1) * 400) by lia.
        rewrite first_of_month_from_march by lia.
        calc ((153 * (3 - 3) + 2) / 5). calc (0 / 4). calc (0 / 100).
        assert (399 / 4 = 99 /\ 399 / 100 = 3) as [E4 E100] by (split; reflexivity).
        rewrite E4, E100 in *. lia.
      * replace (yoe + era * 400 + 1) with ((yoe + 1) + era * 400) by lia.
        rewrite first_of_month_from_march by lia.
        calc ((153 * (3 - 3) + 2) / 5).
        specialize (Hlen ltac:(lia)). lia.
Qed.

(** ** The month windows *)

(** X6.  The window computed when the process starts holds the instant of the
    start, for a start at or after 1970 in local time: the lower bound is
    not after it and the upper bound is after it. *)
Theorem window_holds_start_instant (zone t s e : Z) :
  0 <= t + zone ->
  getCurrentMonthDateRange zone t = (Some s, Some e) ->
  s <= t < e.
Proof.
  intros Ht. unfold getCurrentMonthDateRange, JsDate.getFullYear, JsDate.getMonth.
  pose proof (month_brackets_day (JsDate.Day (t + zone))) as Hb.
  destruct (JsDate.civil_from_days (JsDate.Day (t + zone))) as [[y m] d].
  destruct Hb as (Hm & [Hlo Hhi] & Hy).
  assert (Hday : JsDate.Day (t + zone) * JsDate.msPerDay <= t + zone
                 < (JsDate.Day (t + zone) + 1) * JsDate.msPerDay
                 /\ 0 <= JsDate.Day (t + zone)).
  { unfold JsDate.Day, JsDate.msPerDay.
    Z.to_euclidean_division_equations; lia. }
  destruct Hday as (Hd & Hd0). specialize (Hy Hd0).
  unfold JsDate.of_ymd.
  replace ((0 <=? y) && (y <=? 99)) with false
    by (symmetry; apply andb_false_iff; right; apply Z.leb_gt; lia).
  replace (m - 1 + 1) with m by lia.
  unfold JsDate.TimeClip.
  do 2 match goal with |- context [if ?c then _ else _] => destruct c end;
    try discriminate.
  intros [= <- <-]. unfold JsDate.msPerDay in *. lia.
Qed.

Lemma window_holds_start_instant_witness :
  1733004000000 <= december_15th < 1735682400000.
Proof.
  apply (window_holds_start_instant two_hours december_15th
           1733004000000 1735682400000).
  - vm_compute. discriminate.
  - reflexivity.
Defined.

(** X7.  The window of [GET /] of a starting process has the bounds
    [GET /month/:month] computes at that instant for the number of the
    current month; the two filters differ only on records dated at the
    upper bound, which [GET /] alone selects. *)
Theorem window_is_the_current_month_range
  (zone t s e : Z) (uid : ObjectId.t) (x : Expense.t) :
  getCurrentMonthDateRange zone t = (Some s, Some e) ->
  month_range zone (JsDate.getFullYear zone t)
    (Some (JsDate.getMonth zone t + 1)) = (Some s, Some e)
  /\ current_month_query uid s e x =
     month_query uid s e x
     || (ObjectId.eqb (Expense.user_id x) uid
         && (s <=? e) && (Expense.date_of_expense x =? e)).
Proof.
  intros Hw. split.
  - rewrite <- Hw. unfold month_range, getCurrentMonthDateRange.
    now replace (JsDate.getMonth zone t + 1 - 1) with (JsDate.getMonth zone t)
      by lia.
  - unfold current_month_query, month_query.
    destruct (ObjectId.eqb (Expense.user_id x) uid); [|reflexivity]. simpl.
    destruct (Z.leb_spec s (Expense.date_of_expense x)),
      (Z.leb_spec (Expense.date_of_expense x) e),
      (Z.ltb_spec (Expense.date_of_expense x) e),
      (Z.leb_spec s e),
      (Z.eqb_spec (Expense.date_of_expense x) e); simpl; try reflexivity; lia.
Qed.

Lemma window_is_the_current_month_range_witness :
  month_range 0 (JsDate.getFullYear 0 march_5th)
    (Some (JsDate.getMonth 0 march_5th + 1))
  = (Some 1709251200000, Some april_1st)
  /\ current_month_query alice 1709251200000 april_1st rent =
     month_query alice 1709251200000 april_1st rent
     || (ObjectId.eqb (Expense.user_id rent) alice
         && (1709251200000 <=? april_1st)
         && (Expense.date_of_expense rent =? april_1st)).
Proof.
  apply (window_is_the_current_month_range 0 march_5th). reflexivity.
Defined.

(** X8.  A month number past 12 rolls into the next year: month [m + 12] of
    the year [year] has the bounds of month [m] of the year after. *)
Theorem month_number_rolls_over (zone year m : Z) :
  100 <= year ->
  month_range zone year (Some (m + 12)) = month_range zone (year + 1) (Some m).
Proof.
  intros Hy. unfold month_range, JsDate.of_ymd.
  replace ((0 <=? year) && (year <=? 99)) with false
    by (symmetry; apply andb_false_iff; right; apply Z.leb_gt; lia).
  replace ((0 <=? year + 1) && (year + 1 <=? 99)) with false
    by (symmetry; apply andb_false_iff; right; apply Z.leb_gt; lia).
  assert (Hroll : forall k, JsDate.MakeDay year (k + 12) 1
                            = JsDate.MakeDay (year + 1) k 1).
  { intros k. unfold JsDate.MakeDay. cbv zeta.
    replace (k + 12) with (k + 1 * 12) by lia.
    rewrite Z.div_add, Z.mod_add by lia.
    now replace (year + (k / 12 + 1)) with (year + 1 + k / 12) by lia. }
  replace (m + 12 - 1) with (m - 1 + 12) by lia.
  now rewrite !Hroll.
Qed.

Lemma month_number_rolls_over_witness :
  month_range 0 2024 (Some (1 + 12)) = month_range 0 (2024 + 1) (Some 1).
Proof. apply (month_number_rolls_over 0 2024 1). lia. Defined.

(** ** What the listings return *)

Lemma data_members (l : list Expense.t) (x : Expense.t) :
  (exists b, In b (data l) /\ In x (data_expenses b)) <-> In x l.
Proof.
  split.
  - intros (b & [_ Hb]%data_In & Hx). rewrite Hb in Hx. simpl in Hx.
    now apply Array_sort_In, records_of_day_key in Hx.
  - intros Hx. exists (entry_of (day_key x) l). split.
    + apply data_In. simpl. split; [now apply in_map | reflexivity].
    + simpl. apply Array_sort_In, records_of_day_key. now split.
Qed.

Lemma current_month_query_spec (uid : ObjectId.t) (s e : Z) (x : Expense.t) :
  current_month_query uid s e x = true <->
  Expense.user_id x = uid /\ s <= Expense.date_of_expense x <= e.
Proof.
  unfold current_month_query.
  rewrite !andb_true_iff, ObjectId_eqb_eq, !Z.leb_le. tauto.
Qed.

Lemma month_query_spec (uid : ObjectId.t) (s e : Z) (x : Expense.t) :
  month_query uid s e x = true <->
  Expense.user_id x = uid /\ s <= Expense.date_of_expense x < e.
Proof.
  unfold month_query.
  rewrite !andb_true_iff, ObjectId_eqb_eq, Z.leb_le, Z.ltb_lt. tauto.
Qed.

(** X9.  The days of a [GET /] answer hold exactly the stored expenses of the
    caller dated within the window, bounds included: none of another
    user, none outside the window, none left out. *)
Theorem current_month_listing_is_exact
  (p : Process) (d : DB) (uid : ObjectId.t) (s e : Z)
  (msg : string) (days : list DayEntry) (x : Expense.t) :
  startOfMonth p = Some s -> endOfMonth p = Some e ->
  json (get_root p d uid) = MessageData msg (Days days) ->
  (exists b, In b days /\ In x (data_expenses b)) <->
  (In x (expenses d) /\ Expense.user_id x = uid
   /\ s <= Expense.date_of_expense x <= e).
Proof.
  intros Hs He. unfold get_root, find_between, Expense_find.
  rewrite Hs, He.
  destruct (reachable d); [|discriminate].
  destruct (Array_sort (by_date desc)
              (List.filter (current_month_query uid s e) (expenses d)))
    as [|y l] eqn:El; [discriminate|].
  simpl. intros [= _ <-]. rewrite data_members, <- El.
  now rewrite Array_sort_In, filter_In, current_month_query_spec.
Qed.

Lemma current_month_listing_is_exact_witness :
  (exists b,
     In b [entry_of "2024-03-05" [lunch]] /\ In lunch (data_expenses b)) <->
  (In lunch (expenses (store_of [lunch; bobs_book]))
   /\ Expense.user_id lunch = alice
   /\ 1709251200000 <= Expense.date_of_expense lunch <= april_1st).
Proof.
  apply (current_month_listing_is_exact
           (boot 0 march_5th) (store_of [lunch; bobs_book]) alice
           1709251200000 april_1st "success get all expenses");
    reflexivity.
Defined.

Lemma StronglySorted_weaken {A} (R R' : A -> A -> Prop) (l : list A) :
  (forall a b, R a b -> R' a b) -> StronglySorted R l -> StronglySorted R' l.
Proof.
  intros HR. induction 1 as [|x l Hs IH Hx]; constructor; [exact IH|].
  eapply Forall_impl; [exact Hx|]. auto.
Qed.

(** X10.  The rows of a [GET /month/:month] answer are the stored expenses of
    the caller dated from the lower bound up to, but not at, the upper
    bound, each as often as stored, oldest first. *)
Theorem month_listing_is_exact_and_ascending
  (p : Process) (t : Z) (d : DB) (uid : ObjectId.t) (month : option Z)
  (s e : Z) (msg : string) (rows : list Expense.t) :
  month_range (tz p) (JsDate.getFullYear (tz p) t) month = (Some s, Some e) ->
  json (get_month p t d uid month) = MessageData msg (Rows rows) ->
  ascending rows
  /\ Permutation rows (List.filter (month_query uid s e) (expenses d))
  /\ forall x, In x rows <->
       (In x (expenses d) /\ Expense.user_id x = uid
        /\ s <= Expense.date_of_expense x < e).
Proof.
  intros Hr. unfold get_month, find_between, Expense_find. rewrite Hr.
  destruct (reachable d); [|discriminate].
  set (found := Array_sort (by_date asc)
                  (List.filter (month_query uid s e) (expenses d))).
  assert (Hfound : ascending found
                   /\ Permutation found
                        (List.filter (month_query uid s e) (expenses d))
                   /\ forall x, In x found <->
                        (In x (expenses d) /\ Expense.user_id x = uid
                         /\ s <= Expense.date_of_expense x < e)).
  { unfold found. split; [|split].
    - eapply StronglySorted_weaken;
        [|apply (Array_sort_sorted (by_date asc)
                   (fun x => - Expense.date_of_expense x))].
      + simpl. intros a b. lia.
      + intros a b. simpl. lia.
    - apply Array_sort_perm.
    - intros x. now rewrite Array_sort_In, filter_In, month_query_spec. }
  destruct found as [|y l]; simpl; intros [= _ <-]; exact Hfound.
Qed.

Lemma month_listing_is_exact_and_ascending_witness :
  ascending [lunch; dinner]
  /\ Permutation [lunch; dinner]
       (List.filter (month_query alice 1709251200000 april_1st)
          (expenses (store_of [dinner; rent; lunch])))
  /\ forall x, In x [lunch; dinner] <->
       (In x (expenses (store_of [dinner; rent; lunch]))
        /\ Expense.user_id x = alice
        /\ 1709251200000 <= Expense.date_of_expense x < april_1st).
Proof.
  apply (month_listing_is_exact_and_ascending
           (boot 0 march_5th) march_5th (store_of [dinner; rent; lunch])
           alice (Some 3) 1709251200000 april_1st
           "success get all expenses");
    reflexivity.
Defined.


(** X3.  In an answer of [GET /] the total of each day is the sum of the
    amounts of the records listed under that day, added as doubles from 0
    in the order in which they are listed. *)
Theorem listed_total_sums_listed_records
  (p : Process) (d : DB) (uid : ObjectId.t)
  (msg : string) (days : list DayEntry) (b : DayEntry) :
  json (get_root p d uid) = MessageData msg (Days days) ->
  In b days ->
  total_expense b = sum_amounts (data_expenses b).
Proof.
  unfold get_root, find_between, Expense_find.
  destruct (startOfMonth p) as [s|]; [|discriminate].
  destruct (endOfMonth p) as [e|]; [|discriminate].
  destruct (reachable d); [|discriminate].
  set (found := Array_sort (by_date desc)
                  (List.filter (current_month_query uid s e) (expenses d))).
  assert (Hsorted : descending found).
  { apply (Array_sort_sorted (by_date desc) Expense.date_of_expense).
    intros x y. simpl. lia. }
  destruct found as [|x l] eqn:Ef; [discriminate|].
  cbn [json respond]. intros [= _ <-] [_ Hb]%data_In.
  rewrite Hb. unfold entry_of. cbn [total_expense data_expenses].
  f_equal. symmetry.
  apply (Array_sort_sorted_id newest_first Expense.date_of_expense
           newest_first_rank).
  now apply records_of_day_descending.
Qed.

Lemma listed_total_sums_listed_records_witness :
  total_expense (entry_of "2024-03-05" [dinner; lunch])
  = sum_amounts (data_expenses (entry_of "2024-03-05" [dinner; lunch])).
Proof.
  apply (listed_total_sums_listed_records (boot 0 march_5th)
           (store_of [lunch; bobs_book; dinner]) alice
           "success get all expenses" [entry_of "2024-03-05" [dinner; lunch]]).
  - vm_compute. reflexivity.
  - left. reflexivity.
Defined.
(** ** [GET /:id] *)

Lemma by_id_cast {A} (id : string) (oid : ObjectId.t)
  (query : ObjectId.t -> result A) :
  ObjectId.cast id = Ok oid -> by_id id query = query oid.
Proof. unfold by_id. now intros ->. Qed.

Lemma by_id_refused {A} (id : string) (query : ObjectId.t -> result A) :
  (forall oid, ObjectId.cast id <> Ok oid) ->
  exists text, by_id id query = Throw text.
Proof.
  intros Hno. unfold by_id.
  destruct (ObjectId.cast id) as [oid|text]; [now destruct (Hno oid)|].
  now exists text.
Qed.

Lemma by_id_write_cast {A} (d : DB) (id : string) (oid : ObjectId.t)
  (query : ObjectId.t -> result A * DB) :
  ObjectId.cast id = Ok oid -> by_id_write d id query = query oid.
Proof. unfold by_id_write. now intros ->. Qed.

Lemma by_id_write_refused {A} (d : DB) (id : string)
  (query : ObjectId.t -> result A * DB) :
  (forall oid, ObjectId.cast id <> Ok oid) ->
  exists text, by_id_write d id query = (Throw text, d).
Proof.
  intros Hno. unfold by_id_write.
  destruct (ObjectId.cast id) as [oid|text]; [now destruct (Hno oid)|].
  now exists text.
Qed.

(** X11.  Over a store that answers, [GET /:id] for the text of an id is
    200 with an expense of that id owned by the caller when the store
    holds one, and 404 when it holds none; for a text that is no id it is
    500. *)
Theorem get_by_id_finds_own_expense
  (d : DB) (uid : ObjectId.t) (id : string) :
  reachable d = true ->
  (forall oid, ObjectId.cast id = Ok oid ->
     ((exists x, In x (expenses d)
                 /\ Expense._id x = oid /\ Expense.user_id x = uid) ->
      exists x, In x (expenses d)
                /\ Expense._id x = oid /\ Expense.user_id x = uid
                /\ get_by_id d uid id =
                   respond 200
                     (MessageData "success get expense by id" (Row x)))
     /\ ((forall x, In x (expenses d) ->
                    ~ (Expense._id x = oid /\ Expense.user_id x = uid)) ->
         get_by_id d uid id =
         respond 404 (MessageData "expense not found" (Rows []))))
  /\ ((forall oid, ObjectId.cast id <> Ok oid) ->
      get_by_id d uid id = respond 500 (Message "error get expense by id")).
Proof.
  intros Hr. split.
  - intros oid Hcast. unfold get_by_id.
    rewrite (by_id_cast id oid) by exact Hcast.
    unfold Expense_findOne. rewrite Hr. split.
    + intros (x & Hx & Hq). apply owner_query_spec in Hq.
      destruct (List.find (owner_query uid oid) (expenses d)) as [y|] eqn:E.
      * apply find_some in E as [Hy Hqy]. apply owner_query_spec in Hqy.
        exists y. tauto.
      * eapply find_none in E; [|exact Hx]. congruence.
    + intros Hnone.
      destruct (List.find (owner_query uid oid) (expenses d)) as [y|] eqn:E;
        [|reflexivity].
      apply find_some in E as [Hy Hqy]. apply owner_query_spec in Hqy.
      now destruct (Hnone y Hy).
  - intros Hno. unfold get_by_id.
    destruct (by_id_refused id
                (fun oid => Expense_findOne d (owner_query uid oid)) Hno)
      as [text ->].
    reflexivity.
Qed.

Lemma get_by_id_finds_own_expense_witness :
  (exists x, In x (expenses (store_of [bobs_book; lunch]))
             /\ Expense._id x = e1 /\ Expense.user_id x = alice
             /\ get_by_id (store_of [bobs_book; lunch]) alice
                  (ObjectId.toString e1) =
                respond 200 (MessageData "success get expense by id" (Row x)))
  /\ get_by_id (store_of [bobs_book; lunch]) alice (ObjectId.toString e9) =
     respond 404 (MessageData "expense not found" (Rows []))
  /\ get_by_id (store_of [bobs_book; lunch]) alice short_id =
     respond 500 (Message "error get expense by id").
Proof.
  split; [|split].
  - apply (proj1 (get_by_id_finds_own_expense (store_of [bobs_book; lunch])
                    alice (ObjectId.toString e1) eq_refl) e1 eq_refl).
    exists lunch. repeat split. right. left. reflexivity.
  - apply (proj1 (get_by_id_finds_own_expense (store_of [bobs_book; lunch])
                    alice (ObjectId.toString e9) eq_refl) e9 eq_refl).
    intros x [<-|[<-|[]]] [H1 H2]; discriminate.
  - apply (proj2 (get_by_id_finds_own_expense (store_of [bobs_book; lunch])
                    alice short_id eq_refl)).
    intros oid H. vm_compute in H. discriminate.
Defined.

(** ** When the store rejects *)

(** X12.  A store that rejects makes the three reads and the delete answer 500
    and leaves it alone; [GET /] is the one that puts the text of the
    error in its answer. *)
Theorem store_failure_is_500
  (p : Process) (t : Z) (d : DB) (uid : ObjectId.t) (id : string)
  (month : option Z) :
  reachable d = false ->
  (exists text,
     get_root p d uid = respond 500 (MessageError "error get all expenses" text))
  /\ get_month p t d uid month = respond 500 (Message "error get all expenses")
  /\ get_by_id d uid id = respond 500 (Message "error get expense by id")
  /\ delete_by_id d uid id = (d, respond 500 (Message "error delete expense")).
Proof.
  intros Hr. repeat split.
  - unfold get_root, find_between, Expense_find. rewrite Hr.
    destruct (startOfMonth p), (endOfMonth p); eexists; reflexivity.
  - unfold get_month, find_between, Expense_find. rewrite Hr.
    destruct (month_range (tz p) (JsDate.getFullYear (tz p) t) month)
      as [[s|] [e|]]; reflexivity.
  - unfold get_by_id, by_id, Expense_findOne. rewrite Hr.
    now destruct (ObjectId.cast id).
  - unfold delete_by_id, by_id_write, Expense_findOneAndDelete. rewrite Hr.
    now destruct (ObjectId.cast id).
Qed.

Lemma store_failure_is_500_witness :
  (exists text,
     get_root (boot 0 march_5th) (down [lunch]) alice =
     respond 500 (MessageError "error get all expenses" text))
  /\ get_month (boot 0 march_5th) march_5th (down [lunch]) alice (Some 3) =
     respond 500 (Message "error get all expenses")
  /\ get_by_id (down [lunch]) alice (ObjectId.toString e1) =
     respond 500 (Message "error get expense by id")
  /\ delete_by_id (down [lunch]) alice (ObjectId.toString e1) =
     (down [lunch], respond 500 (Message "error delete expense")).
Proof.
  apply (store_failure_is_500 (boot 0 march_5th) march_5th (down [lunch])
           alice (ObjectId.toString e1) (Some 3)).
  reflexivity.
Defined.

(** X13.  The category lookup of [POST /] and [PATCH /:id] is awaited outside
    the [try]: when the store rejects it, the handler rejects and writes
    no response, where a [PATCH /:id] that needs no lookup answers 500. *)
Theorem category_lookup_failure_escapes
  (S : Schemas) (t : Z) (fresh : ObjectId.t) (d : DB) (uid : ObjectId.t)
  (id : string) (body : gmap string JsVal) :
  reachable d = false ->
  (createExpenseSchema S body = [] ->
   exists text, post_root S fresh d uid body = (d, Throw text))
  /\ (updateExpenseSchema S body = [] ->
      truthy (prop body "category_id") = true ->
      exists text, patch_by_id S t d uid id body = (d, Throw text))
  /\ (updateExpenseSchema S body = [] ->
      truthy (prop body "category_id") = false ->
      no_field_filled body = false ->
      patch_by_id S t d uid id body =
      (d, Ok (respond 500 (Message "error update expense")))).
Proof.
  intros Hr.
  assert (Hlookup : exists text, isCategoryExist d uid body = Throw text).
  { unfold isCategoryExist, Category_findOne. rewrite Hr.
    destruct (castObjectId (prop body "category_id")); eexists; reflexivity. }
  destruct Hlookup as [text Hlookup]. repeat split.
  - intros Hv. unfold post_root. rewrite Hv, Hlookup. now exists text.
  - intros Hv Hc. unfold patch_by_id. rewrite Hv.
    replace (no_field_filled body) with false.
    + rewrite Hc, Hlookup. now exists text.
    + unfold no_field_filled. rewrite Hc. simpl. now rewrite !andb_false_r.
  - intros Hv Hc Hf. unfold patch_by_id. rewrite Hv, Hf, Hc.
    unfold by_id_write, Expense_findOneAndUpdate. rewrite Hr.
    now destruct (ObjectId.cast id).
Qed.

Lemma category_lookup_failure_escapes_witness :
  (exists text, post_root plain e9 (down []) bob book_body = (down [], Throw text))
  /\ (exists text,
        patch_by_id plain april_2nd (down [bobs_book]) bob
          (ObjectId.toString e9) book_body =
        (down [bobs_book], Throw text))
  /\ patch_by_id plain april_2nd (down [bobs_book]) bob
       (ObjectId.toString e9) one_unit =
     (down [bobs_book], Ok (respond 500 (Message "error update expense"))).
Proof.
  split; [|split].
  - apply (category_lookup_failure_escapes
             plain april_2nd e9 (down []) bob (ObjectId.toString e9) book_body);
      reflexivity.
  - apply (category_lookup_failure_escapes
             plain april_2nd e9 (down [bobs_book]) bob (ObjectId.toString e9)
             book_body);
      reflexivity.
  - apply (category_lookup_failure_escapes
             plain april_2nd e9 (down [bobs_book]) bob (ObjectId.toString e9)
             one_unit);
      reflexivity.
Defined.

(** ** The writes *)

Lemma category_query_spec (uid cid : ObjectId.t) (c : Category.t) :
  category_query uid (Some cid) c = true <->
  Category._id c = cid
  /\ (Category.created_by c = None \/ Category.created_by c = Some uid).
Proof.
  unfold category_query. rewrite andb_true_iff, ObjectId_eqb_eq.
  destruct (Category.created_by c) as [u|].
  - rewrite ObjectId_eqb_eq. split.
    + intros [? ->]. auto.
    + intros [? [[=]|[= ->]]]. auto.
  - intuition.
Qed.

Lemma cast_nonempty (text : string) (cid : ObjectId.t) :
  ObjectId.cast text = Ok cid -> text <> ""%string.
Proof. intros H ->. vm_compute in H. discriminate. Qed.

Lemma foreign_category_not_found (d : DB) (uid cid : ObjectId.t)
  (text : string) (body : gmap string JsVal) :
  reachable d = true ->
  prop body "category_id" = JStr text ->
  ObjectId.cast text = Ok cid ->
  (forall c, In c (categories d) -> Category._id c = cid ->
             exists owner, Category.created_by c = Some owner /\ owner <> uid) ->
  isCategoryExist d uid body = Ok None.
Proof.
  intros Hr Hc Hcast Hforeign. unfold isCategoryExist, Category_findOne.
  rewrite Hc. simpl. rewrite Hcast, Hr.
  destruct (List.find (category_query uid (Some cid)) (categories d))
    as [c|] eqn:E; [|reflexivity].
  apply find_some in E as [Hin Hq]. apply category_query_spec in Hq.
  destruct Hq as [Hid Hvis].
  destruct (Hforeign c Hin Hid) as (owner & Ho & Hne).
  destruct Hvis; congruence.
Qed.

(** X14.  A [POST /] whose [category_id] is the text of an id that names
    a category of another user, one that is not shared, is answered 400
    "category not found" and creates nothing. *)
Theorem post_in_foreign_category_is_400
  (S : Schemas) (fresh : ObjectId.t) (d : DB) (uid cid : ObjectId.t)
  (text : string) (body : gmap string JsVal) :
  createExpenseSchema S body = [] ->
  reachable d = true ->
  prop body "category_id" = JStr text ->
  ObjectId.cast text = Ok cid ->
  (forall c, In c (categories d) -> Category._id c = cid ->
             exists owner, Category.created_by c = Some owner /\ owner <> uid) ->
  post_root S fresh d uid body =
  (d, Ok (respond 400 (Message "category not found"))).
Proof.
  intros Hv Hr Hc Hcast Hforeign. unfold post_root.
  now rewrite Hv, (foreign_category_not_found d uid cid text body).
Qed.

Lemma post_in_foreign_category_is_400_witness :
  post_root plain e8 (store_of [lunch]) alice trespass_body =
  (store_of [lunch], Ok (respond 400 (Message "category not found"))).
Proof.
  apply (post_in_foreign_category_is_400
           plain e8 (store_of [lunch]) alice bobs_own_id
           "c00000000000000000000b0b" trespass_body);
    try reflexivity.
  intros c [<-|[<-|[]]] Hid; [discriminate|].
  exists bob. split; [reflexivity | discriminate].
Defined.

(** X15.  A [PATCH /:id] whose [category_id] is the text of an id that
    names a category of another user, one that is not shared, is answered
    400 "category not found" and updates nothing. *)
Theorem patch_to_foreign_category_is_400
  (S : Schemas) (t : Z) (d : DB) (uid cid : ObjectId.t) (id text : string)
  (body : gmap string JsVal) :
  updateExpenseSchema S body = [] ->
  reachable d = true ->
  prop body "category_id" = JStr text ->
  ObjectId.cast text = Ok cid ->
  (forall c, In c (categories d) -> Category._id c = cid ->
             exists owner, Category.created_by c = Some owner /\ owner <> uid) ->
  patch_by_id S t d uid id body =
  (d, Ok (respond 400 (Message "category not found"))).
Proof.
  intros Hv Hr Hc Hcast Hforeign. unfold patch_by_id. rewrite Hv.
  assert (Ht : truthy (prop body "category_id") = true).
  { rewrite Hc. simpl. apply negb_true_iff, String.eqb_neq.
    now apply (cast_nonempty text cid). }
  replace (no_field_filled body) with false
    by (unfold no_field_filled; rewrite Ht; simpl; now rewrite !andb_false_r).
  now rewrite Ht, (foreign_category_not_found d uid cid text body).
Qed.

Lemma patch_to_foreign_category_is_400_witness :
  patch_by_id plain april_2nd (store_of [lunch]) alice (ObjectId.toString e1)
    trespass_body =
  (store_of [lunch], Ok (respond 400 (Message "category not found"))).
Proof.
  apply (patch_to_foreign_category_is_400
           plain april_2nd (store_of [lunch]) alice bobs_own_id
           (ObjectId.toString e1) "c00000000000000000000b0b" trespass_body);
    try reflexivity.
  intros c [<-|[<-|[]]] Hid; [discriminate|].
  exists bob. split; [reflexivity | discriminate].
Defined.

(** X16.  [POST /] changes the store in one way only: answered 201, it has
    appended the one document it returns, cast from the body with the
    caller as [user_id]; with any other outcome the store is as it was. *)
Theorem post_appends_on_201_only
  (S : Schemas) (fresh : ObjectId.t) (d : DB) (uid : ObjectId.t)
  (body : gmap string JsVal) :
  (exists e,
     Expense_new S fresh (<["user_id" := JId uid]> body) = Some e
     /\ post_root S fresh d uid body =
        (with_expenses d (expenses d ++ [e]),
         Ok (respond 201 (MessageData "success create expense" (Row e)))))
  \/ (fst (post_root S fresh d uid body) = d
      /\ forall r, snd (post_root S fresh d uid body) = Ok r -> status r <> 201).
Proof.
  unfold post_root.
  destruct (createExpenseSchema S body) as [|err errs].
  2:{ right. split; [reflexivity|]. intros r [= <-]. discriminate. }
  destruct (isCategoryExist d uid body) as [[c|]|text].
  - unfold Expense_save.
    destruct (reachable d).
    + destruct (Expense_new S fresh (<["user_id" := JId uid]> body)) as [e|].
      * left. now exists e.
      * right. split; [reflexivity|]. intros r [= <-]. discriminate.
    + right. split; [reflexivity|]. intros r [= <-]. discriminate.
  - right. split; [reflexivity|]. intros r [= <-]. discriminate.
  - right. split; [reflexivity|]. discriminate.
Qed.

Lemma prop_insert_ne (body : gmap string JsVal) (k k' : string) (v : JsVal) :
  k <> k' -> prop (<[k := v]> body) k' = prop body k'.
Proof. intros Hne. unfold prop. now rewrite lookup_insert_ne. Qed.

(** X17.  The owner of a new expense is the caller: a [user_id] in the body of
    a [POST /] is overwritten, so a body that names one is treated as the
    body without it, as far as the validation gate lets both pass alike. *)
Theorem post_ignores_user_id_of_body
  (S : Schemas) (fresh : ObjectId.t) (d : DB) (uid : ObjectId.t)
  (body : gmap string JsVal) (v : JsVal) :
  createExpenseSchema S (<["user_id" := v]> body) = createExpenseSchema S body ->
  post_root S fresh d uid (<["user_id" := v]> body) =
  post_root S fresh d uid body.
Proof.
  intros Hv. unfold post_root, isCategoryExist. rewrite Hv.
  rewrite prop_insert_ne by discriminate.
  now rewrite insert_insert_eq.
Qed.

Lemma post_ignores_user_id_of_body_witness :
  post_root plain e9 (store_of []) bob spoofed_body =
  post_root plain e9 (store_of []) bob book_body.
Proof.
  apply (post_ignores_user_id_of_body plain e9 (store_of []) bob
           book_body (JId alice)).
  reflexivity.
Defined.

(** X18.  Likewise the time of an update is the clock's: an [updated_at] in the
    body of a [PATCH /:id] is overwritten. *)
Theorem patch_ignores_updated_at_of_body
  (S : Schemas) (t : Z) (d : DB) (uid : ObjectId.t) (id : string)
  (body : gmap string JsVal) (v : JsVal) :
  updateExpenseSchema S (<["updated_at" := v]> body) = updateExpenseSchema S body ->
  patch_by_id S t d uid id (<["updated_at" := v]> body) =
  patch_by_id S t d uid id body.
Proof.
  intros Hv. unfold patch_by_id, isCategoryExist, no_field_filled.
  rewrite Hv. rewrite !prop_insert_ne by discriminate.
  now rewrite insert_insert_eq.
Qed.

Lemma patch_ignores_updated_at_of_body_witness :
  patch_by_id plain april_2nd (store_of [lunch]) alice (ObjectId.toString e1)
    backdated =
  patch_by_id plain april_2nd (store_of [lunch]) alice (ObjectId.toString e1)
    one_unit.
Proof.
  apply (patch_ignores_updated_at_of_body plain april_2nd (store_of [lunch])
           alice (ObjectId.toString e1) one_unit (JNum 0)).
  reflexivity.
Defined.

Lemma find_snoc {A} (q : A -> bool) (l : list A) (x : A) :
  List.find q (l ++ [x]) =
  match List.find q l with
  | Some y => Some y
  | None => if q x then Some x else None
  end.
Proof.
  induction l as [|y l IH]; simpl; [reflexivity|].
  destruct (q y); [reflexivity | exact IH].
Qed.

Lemma post_root_created
  (S : Schemas) (fresh : ObjectId.t) (d d' : DB) (uid : ObjectId.t)
  (body : gmap string JsVal) (msg : string) (e : Expense.t) :
  post_root S fresh d uid body =
    (d', Ok (respond 201 (MessageData msg (Row e)))) ->
  reachable d = true /\ d' = with_expenses d (expenses d ++ [e]).
Proof.
  unfold post_root, Expense_save.
  destruct (createExpenseSchema S body); [|discriminate].
  destruct (isCategoryExist d uid body) as [[c|]|]; try discriminate.
  destruct (reachable d); [|discriminate].
  destruct (Expense_new S fresh (<["user_id" := JId uid]> body));
    [|discriminate].
  intros H. inversion H; subst. auto.
Qed.

(** X19.  A created expense can be read back: once [POST /] has answered 201
    with a document, [GET /:id] by the owner of that document, for its id,
    answers 200 with the same document, if the store held no document of
    that id and owner before. *)
Theorem created_expense_is_read_back
  (S : Schemas) (fresh : ObjectId.t) (d d' : DB) (uid : ObjectId.t)
  (body : gmap string JsVal) (msg : string) (e : Expense.t) :
  post_root S fresh d uid body =
    (d', Ok (respond 201 (MessageData msg (Row e)))) ->
  (forall x, In x (expenses d) ->
             ~ (Expense._id x = Expense._id e
                /\ Expense.user_id x = Expense.user_id e)) ->
  get_by_id d' (Expense.user_id e) (ObjectId.toString (Expense._id e)) =
  respond 200 (MessageData "success get expense by id" (Row e)).
Proof.
  intros Hpost Hnew.
  destruct (post_root_created S fresh d d' uid body msg e Hpost) as [Hr ->].
  unfold get_by_id.
  rewrite (by_id_cast _ (Expense._id e)) by apply cast_toString.
  unfold Expense_findOne. simpl. rewrite Hr, find_snoc.
  destruct (List.find _ (expenses d)) as [y|] eqn:E.
  - apply find_some in E as [Hy Hq]. apply owner_query_spec in Hq.
    now destruct (Hnew y Hy).
  - unfold owner_query. now rewrite !ObjectId_eqb_refl.
Qed.

Lemma created_expense_is_read_back_witness :
  get_by_id (store_of [lunch; bobs_book])
    (Expense.user_id bobs_book) (ObjectId.toString (Expense._id bobs_book)) =
  respond 200 (MessageData "success get expense by id" (Row bobs_book)).
Proof.
  apply (created_expense_is_read_back plain e9 (store_of [lunch])
           (store_of [lunch; bobs_book]) bob book_body
           "success create expense" bobs_book).
  - reflexivity.
  - intros x [<-|[]] [H _]. discriminate.
Defined.

(** ** What the writes leave alone *)

Lemma replace_first_length (q : Expense.t -> bool) (f : Expense.t -> Expense.t)
  (l : list Expense.t) :
  length (replace_first q f l) = length l.
Proof.
  induction l as [|x l IH]; simpl; [reflexivity|].
  destruct (q x); simpl; now rewrite ?IH.
Qed.

Lemma replace_first_none (q : Expense.t -> bool) (f : Expense.t -> Expense.t)
  (l : list Expense.t) :
  List.find q l = None -> replace_first q f l = l.
Proof.
  induction l as [|x l IH]; simpl; [reflexivity|].
  destruct (q x); [discriminate|]. intros H. now rewrite IH.
Qed.

Lemma replace_first_keeps (q : Expense.t -> bool) (f : Expense.t -> Expense.t)
  (l : list Expense.t) (x : Expense.t) :
  In x l -> q x = false -> In x (replace_first q f l).
Proof.
  induction l as [|y l IH]; simpl; [tauto|].
  intros [->|Hx] Hq.
  - rewrite Hq. now left.
  - destruct (q y); right; auto.
Qed.

Lemma with_expenses_same (d : DB) : with_expenses d (expenses d) = d.
Proof. now destruct d. Qed.

(** X20.  [PATCH /:id] neither adds nor removes a document: whatever the
    outcome, the categories and the number of expenses are as before and
    every expense but the one the path names is still there; and unless
    the answer is 200 the store is unchanged altogether. *)
Theorem patch_keeps_the_collections
  (S : Schemas) (t : Z) (d : DB) (uid : ObjectId.t) (id : string)
  (body : gmap string JsVal) :
  let d' := fst (patch_by_id S t d uid id body) in
  let out := snd (patch_by_id S t d uid id body) in
  categories d' = categories d
  /\ length (expenses d') = length (expenses d)
  /\ (forall x, In x (expenses d) ->
                ObjectId.cast id <> Ok (Expense._id x) -> In x (expenses d'))
  /\ ((forall r, out = Ok r -> status r <> 200) -> d' = d).
Proof.
  unfold patch_by_id.
  destruct (updateExpenseSchema S body); [|simpl; auto].
  destruct (no_field_filled body); [simpl; auto|].
  destruct (if truthy (prop body "category_id") then _ else _)
    as [[|]|text]; try (simpl; auto; fail).
  unfold by_id_write.
  destruct (ObjectId.cast id) as [oid|text]; [|simpl; auto].
  unfold Expense_findOneAndUpdate.
  destruct (reachable d); [|simpl; auto].
  destruct (Expense_set S (<["updated_at" := JDate t]> body)) as [f|];
    [|simpl; auto].
  destruct (List.find (update_query uid oid) (expenses d)) as [x|] eqn:E; simpl.
  - repeat split.
    + apply replace_first_length.
    + intros y Hy Hne. apply replace_first_keeps; [exact Hy|].
      unfold update_query. apply andb_false_iff. left.
      apply ObjectId_eqb_neq. congruence.
    + intros Hno. now destruct (Hno _ eq_refl).
  - rewrite replace_first_none by exact E. rewrite with_expenses_same. auto.
Qed.

Lemma replace_first_found (q : Expense.t -> bool) (f : Expense.t -> Expense.t)
  (l : list Expense.t) (x : Expense.t) :
  List.find q l = Some x -> In (f x) (replace_first q f l).
Proof.
  induction l as [|y l IH]; simpl; [discriminate|].
  destruct (q y).
  - intros [= ->]. now left.
  - intros H. right. auto.
Qed.

(** X21.  [PATCH /:id] answered 200 returns the document as it now is in the
    store: the first stored expense that its filter matches, which has
    the id the path names, with the update of the body applied. *)
Theorem patch_200_returns_stored_update
  (S : Schemas) (t : Z) (d d' : DB) (uid : ObjectId.t) (id : string)
  (body : gmap string JsVal) (msg : string) (e' : Expense.t) :
  patch_by_id S t d uid id body =
    (d', Ok (respond 200 (MessageData msg (Row e')))) ->
  In e' (expenses d')
  /\ exists f x,
       Expense_set S (<["updated_at" := JDate t]> body) = Some f
       /\ List.find (update_query uid (Expense._id x)) (expenses d) = Some x
       /\ ObjectId.cast id = Ok (Expense._id x)
       /\ e' = f x
       /\ expenses d' =
          replace_first (update_query uid (Expense._id x)) f (expenses d).
Proof.
  unfold patch_by_id.
  destruct (updateExpenseSchema S body); [|discriminate].
  destruct (no_field_filled body); [discriminate|].
  destruct (if truthy (prop body "category_id") then _ else _)
    as [[|]|text]; try discriminate.
  unfold by_id_write.
  destruct (ObjectId.cast id) as [oid|text]; [|discriminate].
  unfold Expense_findOneAndUpdate.
  destruct (reachable d); [|discriminate].
  destruct (Expense_set S (<["updated_at" := JDate t]> body)) as [f|];
    [|discriminate].
  destruct (List.find (update_query uid oid) (expenses d)) as [x|] eqn:E;
    [|discriminate].
  simpl. intros H. inversion H; subst. clear H.
  assert (Hid : Expense._id x = oid).
  { apply find_some in E as [_ Hq]. apply update_query_spec in Hq. tauto. }
  split.
  - simpl. now apply replace_first_found.
  - exists f, x. rewrite Hid. repeat split. exact E.
Qed.

Lemma patch_200_returns_stored_update_witness :
  In bobs_book_patched (expenses (store_of [lunch; bobs_book_patched]))
  /\ exists f x,
       Expense_set plain (<["updated_at" := JDate april_2nd]> one_unit) = Some f
       /\ List.find (update_query bob (Expense._id x))
            (expenses (store_of [lunch; bobs_book])) = Some x
       /\ ObjectId.cast (ObjectId.toString e9) = Ok (Expense._id x)
       /\ bobs_book_patched = f x
       /\ expenses (store_of [lunch; bobs_book_patched]) =
          replace_first (update_query bob (Expense._id x)) f
            (expenses (store_of [lunch; bobs_book])).
Proof.
  apply (patch_200_returns_stored_update plain april_2nd
           (store_of [lunch; bobs_book]) (store_of [lunch; bobs_book_patched])
           bob (ObjectId.toString e9) one_unit "success update expense"
           bobs_book_patched).
  vm_compute. reflexivity.
Defined.

(** ** [DELETE /:id] *)

Lemma remove_first_found (q : Expense.t -> bool) (l : list Expense.t)
  (x : Expense.t) :
  List.find q l = Some x -> Permutation l (x :: remove_first q l).
Proof.
  induction l as [|y l IH]; simpl; [discriminate|].
  destruct (q y).
  - now intros [= ->].
  - intros H. rewrite (IH H) at 1. apply perm_swap.
Qed.

Lemma remove_first_none (q : Expense.t -> bool) (l : list Expense.t) :
  List.find q l = None -> remove_first q l = l.
Proof.
  induction l as [|y l IH]; simpl; [reflexivity|].
  destruct (q y); [discriminate|]. intros H. now rewrite IH.
Qed.

Lemma remove_first_keeps (q : Expense.t -> bool) (l : list Expense.t)
  (x : Expense.t) :
  In x l -> q x = false -> In x (remove_first q l).
Proof.
  induction l as [|y l IH]; simpl; [tauto|].
  intros [->|Hx] Hq.
  - rewrite Hq. now left.
  - destruct (q y); [exact Hx | right; auto].
Qed.

(** X22.  [DELETE /:id] answered 200 has removed exactly the document it
    returns, an expense of the id the path names owned by the caller;
    answered anything else it has removed nothing. *)
Theorem delete_removes_what_it_returns
  (d : DB) (uid : ObjectId.t) (id : string) :
  let d' := fst (delete_by_id d uid id) in
  let r := snd (delete_by_id d uid id) in
  (exists x,
     r = respond 200 (MessageData "success delete expense" (Row x))
     /\ ObjectId.cast id = Ok (Expense._id x) /\ Expense.user_id x = uid
     /\ Permutation (expenses d) (x :: expenses d')
     /\ categories d' = categories d)
  \/ (status r <> 200 /\ d' = d).
Proof.
  unfold delete_by_id, by_id_write.
  destruct (ObjectId.cast id) as [oid|text];
    [|right; simpl; split; [discriminate|reflexivity]].
  unfold Expense_findOneAndDelete.
  destruct (reachable d); [|right; simpl; split; [discriminate|reflexivity]].
  destruct (List.find (owner_query uid oid) (expenses d)) as [x|] eqn:E; simpl.
  - left. exists x. pose proof (find_some _ _ E) as [_ Hq].
    apply owner_query_spec in Hq as [<- ?].
    repeat split; auto. now apply remove_first_found.
  - right. split; [discriminate|].
    rewrite remove_first_none by exact E. apply with_expenses_same.
Qed.

(** X23.  [DELETE /:id] never removes an expense of another user, whatever id
    it is given. *)
Theorem delete_spares_other_users
  (d : DB) (uid : ObjectId.t) (id : string) (x : Expense.t) :
  In x (expenses d) -> Expense.user_id x <> uid ->
  In x (expenses (fst (delete_by_id d uid id))).
Proof.
  intros Hx Hne. unfold delete_by_id, by_id_write.
  destruct (ObjectId.cast id) as [oid|text]; [|exact Hx].
  unfold Expense_findOneAndDelete.
  destruct (reachable d); [|exact Hx].
  destruct (List.find (owner_query uid oid) (expenses d));
    simpl; (apply remove_first_keeps; [exact Hx|]);
    unfold owner_query; apply andb_false_iff; right;
    now apply ObjectId_eqb_neq.
Qed.

Lemma delete_spares_other_users_witness :
  In bobs_book
    (expenses (fst (delete_by_id (store_of [lunch; bobs_book]) alice
                      (ObjectId.toString e9)))).
Proof.
  apply (delete_spares_other_users (store_of [lunch; bobs_book]) alice
           (ObjectId.toString e9)).
  - right. left. reflexivity.
  - discriminate.
Defined.

Lemma remove_first_unique (uid id : ObjectId.t) (l : list Expense.t) :
  NoDup (map Expense._id l) ->
  List.find (owner_query uid id) (remove_first (owner_query uid id) l) = None.
Proof.
  induction l as [|y l IH]; simpl; [reflexivity|].
  intros [Hy Hnd]%NoDup_cons.
  destruct (owner_query uid id y) eqn:Eq.
  - apply owner_query_spec in Eq as [Hid _].
    destruct (List.find (owner_query uid id) l) as [z|] eqn:E; [|reflexivity].
    apply find_some in E as [Hz Hq]. apply owner_query_spec in Hq as [Hzid _].
    exfalso. apply Hy, list_elem_of_In, in_map_iff. exists z.
    split; [congruence | exact Hz].
  - simpl. rewrite Eq. now apply IH.
Qed.

(** X24.  Deleting is idempotent where ids are unique: after a
    [DELETE /:id] for the text of an id, found or not, reading and
    deleting that id again both answer 404, and the second delete changes
    nothing. *)
Theorem delete_then_not_found
  (d : DB) (uid oid : ObjectId.t) (id : string) :
  reachable d = true ->
  NoDup (map Expense._id (expenses d)) ->
  ObjectId.cast id = Ok oid ->
  let d' := fst (delete_by_id d uid id) in
  get_by_id d' uid id = respond 404 (MessageData "expense not found" (Rows []))
  /\ delete_by_id d' uid id = (d', respond 404 (Message "expense not found")).
Proof.
  intros Hr Hnd Hcast.
  assert (Hd' : fst (delete_by_id d uid id) =
                with_expenses d (remove_first (owner_query uid oid) (expenses d))).
  { unfold delete_by_id. rewrite (by_id_write_cast d id oid) by exact Hcast.
    unfold Expense_findOneAndDelete. rewrite Hr.
    now destruct (List.find (owner_query uid oid) (expenses d)). }
  cbv zeta. rewrite Hd'.
  unfold get_by_id, delete_by_id.
  rewrite (by_id_cast id oid), (by_id_write_cast _ id oid) by exact Hcast.
  unfold Expense_findOne, Expense_findOneAndDelete.
  simpl. rewrite Hr, remove_first_unique by exact Hnd.
  split; [reflexivity|].
  rewrite (remove_first_none _
             (remove_first (owner_query uid oid) (expenses d)))
    by now apply remove_first_unique.
  reflexivity.
Qed.

Lemma delete_then_not_found_witness :
  get_by_id (fst (delete_by_id (store_of [lunch; dinner]) alice
                    (ObjectId.toString e1)))
    alice (ObjectId.toString e1)
  = respond 404 (MessageData "expense not found" (Rows []))
  /\ delete_by_id (fst (delete_by_id (store_of [lunch; dinner]) alice
                          (ObjectId.toString e1)))
       alice (ObjectId.toString e1)
     = (fst (delete_by_id (store_of [lunch; dinner]) alice
               (ObjectId.toString e1)),
        respond 404 (Message "expense not found")).
Proof.
  apply (delete_then_not_found (store_of [lunch; dinner]) alice e1
           (ObjectId.toString e1)).
  - reflexivity.
  - simpl. apply NoDup_cons. split.
    + intros [H|H]%elem_of_cons; [discriminate | now apply elem_of_nil in H].
    + apply NoDup_singleton.
  - reflexivity.
Defined.

(** ** The server *)

Lemma post_root_categories
  (S : Schemas) (fresh : ObjectId.t) (d : DB) (uid : ObjectId.t)
  (body : gmap string JsVal) :
  categories (fst (post_root S fresh d uid body)) = categories d.
Proof.
  unfold post_root, Expense_save.
  destruct (createExpenseSchema S body); [|reflexivity].
  destruct (isCategoryExist d uid body) as [[c|]|]; try reflexivity.
  destruct (reachable d); [|reflexivity].
  now destruct (Expense_new S fresh (<["user_id" := JId uid]> body)).
Qed.

Lemma patch_by_id_categories
  (S : Schemas) (t : Z) (d : DB) (uid : ObjectId.t) (id : string)
  (body : gmap string JsVal) :
  categories (fst (patch_by_id S t d uid id body)) = categories d.
Proof.
  unfold patch_by_id, by_id_write, Expense_findOneAndUpdate.
  destruct (updateExpenseSchema S body); [|reflexivity].
  destruct (no_field_filled body); [reflexivity|].
  destruct (if truthy (prop body "category_id") then _ else _)
    as [[|]|text]; try reflexivity.
  destruct (ObjectId.cast id) as [oid|]; [|reflexivity].
  destruct (reachable d); [|reflexivity].
  destruct (Expense_set S (<["updated_at" := JDate t]> body)); [|reflexivity].
  now destruct (List.find (update_query uid oid) (expenses d)).
Qed.

Lemma delete_by_id_categories (d : DB) (uid : ObjectId.t) (id : string) :
  categories (fst (delete_by_id d uid id)) = categories d.
Proof.
  unfold delete_by_id, by_id_write, Expense_findOneAndDelete.
  destruct (ObjectId.cast id) as [oid|]; [|reflexivity].
  destruct (reachable d); [|reflexivity].
  now destruct (List.find (owner_query uid oid) (expenses d)).
Qed.

Lemma serve_categories (S : Schemas) (st : State) (env : Env) (r : Request) :
  categories (db (fst (serve S st env r))) = categories (db st).
Proof.
  destruct r; simpl; try reflexivity.
  - pose proof (post_root_categories S (fresh_id env) (db st) uid body).
    now destruct (post_root S (fresh_id env) (db st) uid body).
  - pose proof (patch_by_id_categories S (now env) (db st) uid id body).
    now destruct (patch_by_id S (now env) (db st) uid id body).
  - pose proof (delete_by_id_categories (db st) uid id).
    now destruct (delete_by_id (db st) uid id).
Qed.

(** X25.  The router only reads the categories: after any sequence of requests
    they are what they were. *)
Theorem run_keeps_categories
  (S : Schemas) (st : State) (evs : list (Env * Request)) :
  categories (db (fst (run S st evs))) = categories (db st).
Proof.
  revert st. induction evs as [|[env r] evs IH]; intros st; [reflexivity|].
  simpl. pose proof (serve_categories S st env r) as Hs.
  destruct (serve S st env r) as [st1 out]. simpl in Hs.
  specialize (IH st1). destruct (run S st1 evs) as [st2 outs].
  simpl in *. congruence.
Qed.

(** X26.  Each route writes only its own status codes: 200, 404 or 500 for the
    reads and the delete, 201, 400 or 500 for the create, and 200, 400,
    404 or 500 for the update. *)
Theorem statuses_by_route
  (S : Schemas) (st st' : State) (env : Env) (r : Request) (resp : Response) :
  serve S st env r = (st', Ok resp) -> In (status resp) (statuses_of r).
Proof.
  destruct r; simpl.
  - intros [= _ <-]. unfold get_root.
    destruct (find_between _ _ _ _ _) as [[|]|]; simpl; tauto.
  - intros [= _ <-]. unfold get_month.
    destruct (month_range _ _ _) as [s e].
    destruct (find_between _ _ _ _ _) as [[|]|]; simpl; tauto.
  - intros [= _ <-]. unfold get_by_id.
    destruct (by_id _ _) as [[|]|]; simpl; tauto.
  - unfold post_root.
    destruct (createExpenseSchema S body);
      [|intros [= _ <-]; simpl; tauto].
    destruct (isCategoryExist _ _ _) as [[|]|]; try discriminate;
      [|intros [= _ <-]; simpl; tauto].
    destruct (Expense_save _ _) as [[|] ?]; intros [= _ <-]; simpl; tauto.
  - unfold patch_by_id.
    destruct (updateExpenseSchema S body);
      [|intros [= _ <-]; simpl; tauto].
    destruct (no_field_filled body); [intros [= _ <-]; simpl; tauto|].
    destruct (if truthy (prop body "category_id") then _ else _)
      as [[|]|text]; try discriminate; [intros [= _ <-]; simpl; tauto|].
    destruct (by_id_write _ _ _) as [[[|]|] ?];
      intros [= _ <-]; simpl; tauto.
  - unfold delete_by_id.
    destruct (by_id_write _ _ _) as [[[|]|] ?];
      intros [= _ <-]; simpl; tauto.
Qed.

Lemma statuses_by_route_witness :
  In (status (respond 404 (Message "expense not found")))
     (statuses_of (Delete alice (ObjectId.toString e9))).
Proof.
  apply (statuses_by_route plain
           (start 0 march_5th (store_of [bobs_book]))
           (start 0 march_5th (store_of [bobs_book]))
           {| now := april_2nd; fresh_id := e6 |}
           (Delete alice (ObjectId.toString e9))).
  reflexivity.
Defined.

(** ** Texts that are no id *)

(** X27.  A path segment that is no ObjectId, not 24 hexadecimal digits,
    is answered 500 by [GET /:id] and by [DELETE /:id], and by a
    [PATCH /:id] that has passed its checks; the store is left as it
    was, whether it answers or not. *)
Theorem malformed_id_is_500
  (S : Schemas) (t : Z) (d : DB) (uid : ObjectId.t) (id : string)
  (body : gmap string JsVal) :
  (forall oid, ObjectId.cast id <> Ok oid) ->
  get_by_id d uid id = respond 500 (Message "error get expense by id")
  /\ delete_by_id d uid id = (d, respond 500 (Message "error delete expense"))
  /\ (updateExpenseSchema S body = [] ->
      no_field_filled body = false ->
      truthy (prop body "category_id") = false ->
      patch_by_id S t d uid id body =
      (d, Ok (respond 500 (Message "error update expense")))).
Proof.
  intros Hno. split; [|split].
  - unfold get_by_id.
    destruct (by_id_refused id
                (fun oid => Expense_findOne d (owner_query uid oid)) Hno)
      as [text ->].
    reflexivity.
  - unfold delete_by_id.
    destruct (by_id_write_refused d id
                (fun oid => Expense_findOneAndDelete d (owner_query uid oid))
                Hno) as [text ->].
    reflexivity.
  - intros Hv Hf Hc. unfold patch_by_id. rewrite Hv, Hf, Hc.
    destruct (by_id_write_refused d id
                (fun oid => Expense_findOneAndUpdate d (update_query uid oid)
                              (Expense_set S (<["updated_at" := JDate t]> body)))
                Hno) as [text ->].
    reflexivity.
Qed.

Lemma malformed_id_is_500_witness :
  get_by_id (store_of [lunch]) alice not_hex_id =
    respond 500 (Message "error get expense by id")
  /\ delete_by_id (store_of [lunch]) alice not_hex_id =
     (store_of [lunch], respond 500 (Message "error delete expense"))
  /\ patch_by_id plain april_2nd (store_of [lunch]) alice not_hex_id one_unit =
     (store_of [lunch], Ok (respond 500 (Message "error update expense"))).
Proof.
  assert (Hno : forall oid, ObjectId.cast not_hex_id <> Ok oid)
    by (intros oid H; vm_compute in H; discriminate).
  destruct (malformed_id_is_500 plain april_2nd (store_of [lunch]) alice
              not_hex_id one_unit Hno) as (Hg & Hd & Hp).
  split; [exact Hg|]. split; [exact Hd|].
  apply Hp; reflexivity.
Defined.

(** X28.  A [category_id] that is a string but no ObjectId makes the
    category lookup reject outside the [try]: a validated [POST /], and a
    validated [PATCH /:id] whose [category_id] is not empty, reject and
    write no response, leaving the store as it was. *)
Theorem malformed_category_id_escapes
  (S : Schemas) (t : Z) (fresh : ObjectId.t) (d : DB) (uid : ObjectId.t)
  (id text : string) (body : gmap string JsVal) :
  prop body "category_id" = JStr text ->
  (forall oid, ObjectId.cast text <> Ok oid) ->
  (createExpenseSchema S body = [] ->
   exists msg, post_root S fresh d uid body = (d, Throw msg))
  /\ (updateExpenseSchema S body = [] ->
      text <> ""%string ->
      exists msg, patch_by_id S t d uid id body = (d, Throw msg)).
Proof.
  intros Hc Hno.
  assert (Hlookup : exists msg, isCategoryExist d uid body = Throw msg).
  { unfold isCategoryExist. rewrite Hc. simpl.
    destruct (ObjectId.cast text) as [oid|msg]; [now destruct (Hno oid)|].
    now exists msg. }
  destruct Hlookup as [msg Hlookup]. split.
  - intros Hv. unfold post_root. rewrite Hv, Hlookup. now exists msg.
  - intros Hv Hne. unfold patch_by_id. rewrite Hv.
    assert (Ht : truthy (prop body "category_id") = true).
    { rewrite Hc. simpl. now apply negb_true_iff, String.eqb_neq. }
    replace (no_field_filled body) with false
      by (unfold no_field_filled; rewrite Ht; simpl; now rewrite !andb_false_r).
    rewrite Ht, Hlookup. now exists msg.
Qed.

Lemma malformed_category_id_escapes_witness :
  (exists msg,
     post_root plain e8 (store_of [lunch]) alice misfiled_body =
     (store_of [lunch], Throw msg))
  /\ (exists msg,
        patch_by_id plain april_2nd (store_of [lunch]) alice
          (ObjectId.toString e1) misfiled_body =
        (store_of [lunch], Throw msg)).
Proof.
  assert (Hno : forall oid, ObjectId.cast "c-bob" <> Ok oid)
    by (intros oid H; vm_compute in H; discriminate).
  assert (Hc : prop misfiled_body "category_id" = JStr "c-bob")
    by (vm_compute; reflexivity).
  destruct (malformed_category_id_escapes plain april_2nd e8 (store_of [lunch])
              alice (ObjectId.toString e1) "c-bob" misfiled_body Hc Hno)
    as [Hpost Hpatch].
  split; [apply Hpost; reflexivity | apply Hpatch; [reflexivity | discriminate]].
Defined.

(** X29.  A validated [POST /] whose body has no [category_id], or has
    [null] there, finds no category: over a store that answers it is
    answered 400 "category not found" and creates nothing. *)
Theorem post_without_category_is_400
  (S : Schemas) (fresh : ObjectId.t) (d : DB) (uid : ObjectId.t)
  (body : gmap string JsVal) :
  createExpenseSchema S body = [] ->
  reachable d = true ->
  body !! "category_id" = None \/ body !! "category_id" = Some JNull ->
  post_root S fresh d uid body =
  (d, Ok (respond 400 (Message "category not found"))).
Proof.
  intros Hv Hr Hc. unfold post_root, isCategoryExist, Category_findOne.
  rewrite Hv, Hr.
  assert (Hcast : castObjectId (prop body "category_id") = Ok None).
  { unfold prop. destruct Hc as [-> | ->]; reflexivity. }
  rewrite Hcast.
  assert (Hfind : List.find (category_query uid None) (categories d) = None).
  { induction (categories d) as [|c cs IH]; [reflexivity|]. simpl. exact IH. }
  now rewrite Hfind.
Qed.

Lemma post_without_category_is_400_witness :
  post_root plain e8 (store_of [lunch]) alice one_unit =
  (store_of [lunch], Ok (respond 400 (Message "category not found"))).
Proof.
  apply (post_without_category_is_400 plain e8 (store_of [lunch]) alice one_unit);
    [reflexivity | reflexivity | left; reflexivity].
Defined.

(** ** The validation gate *)

(** X30.  A body on which the validation gate raises errors is answered
    400 with all of them, formatted, by [POST /] and by [PATCH /:id];
    nothing is looked up and the store is left as it was, whether it
    answers or not. *)
Theorem validation_failure_is_400
  (S : Schemas) (t : Z) (fresh : ObjectId.t) (d : DB) (uid : ObjectId.t)
  (id : string) (body : gmap string JsVal) :
  (createExpenseSchema S body <> [] ->
   post_root S fresh d uid body =
   (d, Ok (respond 400
             (Errors (formatValidationErrors S (createExpenseSchema S body))))))
  /\ (updateExpenseSchema S body <> [] ->
      patch_by_id S t d uid id body =
      (d, Ok (respond 400
                (Errors (formatValidationErrors S (updateExpenseSchema S body)))))).
Proof.
  split; intros Hne.
  - unfold post_root. now destruct (createExpenseSchema S body).
  - unfold patch_by_id. now destruct (updateExpenseSchema S body).
Qed.

Lemma validation_failure_is_400_witness :
  post_root strict e8 (down [lunch]) alice book_body =
  (down [lunch],
   Ok (respond 400 (Errors ["amount is required"; "name is required"])))
  /\ patch_by_id strict april_2nd (down [lunch]) alice not_hex_id book_body =
     (down [lunch],
      Ok (respond 400 (Errors ["amount is required"; "name is required"]))).
Proof.
  destruct (validation_failure_is_400 strict april_2nd e8 (down [lunch]) alice
              not_hex_id book_body) as [Hpost Hpatch].
  split; [apply Hpost | apply Hpatch]; discriminate.
Defined.
